(** * Pitch tracker ([Summary.py])

    A shallow embedding of the zone graph, the [PitchTracker] session object
    and its summary, followed by the properties established about them.

    Python integers are unbounded, hence [Z].  Strings are [string], compared
    with [String.eqb] where Python uses [==] or [in].  Python floats are IEEE
    binary64 numbers: they are [spec_float] values operated on with the
    Standard Library's specification of binary floating point, instantiated
    at precision 53 and maximal exponent 1024.  The methods of [PitchTracker]
    read and write [self] and may raise: they live in a state-and-exception
    monad over the tracker record. *)

From Stdlib Require Import ZArith List String Ascii Bool Lia.
From Stdlib Require Import SpecFloat DecimalString.
Import ListNotations.

Local Open Scope string_scope.
Local Open Scope list_scope.
Local Open Scope Z_scope.

(* ================================================================== *)
(** ** Python containers *)

(** [x in l] for a list [l] of strings. *)
Definition list_contains (x : string) (l : list string) : bool :=
  existsb (String.eqb x) l.

(** A [dict] with string keys, kept in insertion order. *)
Definition dict (V : Type) : Type := list (string * V).

Fixpoint dict_get {V : Type} (k : string) (d : dict V) : option V :=
  match d with
  | [] => None
  | (k', v) :: d' => if String.eqb k' k then Some v else dict_get k d'
  end.

(** [d[k] = v]: an existing key keeps its place, a new one goes last. *)
Fixpoint dict_set {V : Type} (k : string) (v : V) (d : dict V) : dict V :=
  match d with
  | [] => [(k, v)]
  | (k', v') :: d' =>
      if String.eqb k' k then (k', v) :: d' else (k', v') :: dict_set k v d'
  end.

(** [d.get(k, default)]. *)
Definition dict_get_default {V : Type} (k : string) (default : V) (d : dict V) : V :=
  match dict_get k d with
  | Some v => v
  | None => default
  end.

(** [k in d]. *)
Definition dict_contains {V : Type} (k : string) (d : dict V) : bool :=
  match dict_get k d with
  | Some _ => true
  | None => false
  end.

(** [sum(...)] over integers. *)
Definition py_sum (l : list Z) : Z := fold_left Z.add l 0.

(** [len(...)]. *)
Definition len {A : Type} (l : list A) : Z := Z.of_nat (List.length l).

(** [str(n)] for an integer. *)
Definition str_int (n : Z) : string := NilZero.string_of_int (Z.to_int n).

(* ================================================================== *)
(** ** Domain: neighbor relationships *)

Definition NEIGHBORS : dict (list string) :=
  [ ("Q1", ["Q2"; "Q4"; "T1"; "L1"]); ("Q2", ["Q1"; "Q3"; "Q5"; "T2"]);
    ("Q3", ["Q2"; "Q6"; "T3"; "R1"]);
    ("Q4", ["Q1"; "Q5"; "Q7"; "L2"]); ("Q5", ["Q2"; "Q4"; "Q6"; "Q8"]);
    ("Q6", ["Q3"; "Q5"; "Q9"; "R2"]);
    ("Q7", ["Q4"; "Q8"; "L3"; "B1"]); ("Q8", ["Q5"; "Q7"; "Q9"; "B2"]);
    ("Q9", ["Q6"; "Q8"; "R3"; "B3"]);
    ("T1", ["Q1"; "Q2"; "T2"]); ("T2", ["Q2"; "T1"; "T3"]);
    ("T3", ["Q2"; "Q3"; "T2"]);
    ("L1", ["Q1"; "L2"]); ("L2", ["Q4"; "L1"; "L3"]); ("L3", ["Q7"; "L2"]);
    ("R1", ["Q3"; "R2"]); ("R2", ["Q6"; "R1"; "R3"]); ("R3", ["Q9"; "R2"]);
    ("B1", ["Q7"; "B2"]); ("B2", ["Q8"; "B1"; "B3"]); ("B3", ["Q9"; "B2"]) ].

Definition ZONES_ORDER : list (list string) :=
  [ ["TL"; "T1"; "T2"; "T3"; "TR"];
    ["L1"; "Q1"; "Q2"; "Q3"; "R1"];
    ["L2"; "Q4"; "Q5"; "Q6"; "R2"];
    ["L3"; "Q7"; "Q8"; "Q9"; "R3"];
    ["BL"; "B1"; "B2"; "B3"; "BR"] ].

(** [[z for row in ZONES_ORDER for z in row]]. *)
Definition ALL_ZONES : list string := List.concat ZONES_ORDER.

(** The four corners of the grid: the zones [NEIGHBORS] has no entry for. *)
Definition CORNERS : list string := ["TL"; "TR"; "BL"; "BR"].

(** [PitchTracker.is_neighbor], a static method. *)
Definition is_neighbor (target actual : string) : bool :=
  list_contains actual (dict_get_default target [] NEIGHBORS).

(* ================================================================== *)
(** ** Optional: heat color helper *)

Definition get_heat_color (v : Z) : string :=
  if v =? 0 then "#ffffff"
  else if v <? 3 then "#a3d5ff"
  else if v <? 6 then "#3399ff"
  else "#004c99".

Definition HEAT_COLORS : list string :=
  ["#ffffff"; "#a3d5ff"; "#3399ff"; "#004c99"].

(* ================================================================== *)
(** ** Floats

    Python's [float] is an IEEE binary64 number.  Division, multiplication,
    [round(x, ndigits)] and the [.1f] format are the correctly rounded
    operations of CPython. *)

Definition prec : Z := 53.
Definition emax : Z := 1024.

Definition float : Type := spec_float.

(** The literals [0.0] and [100.0]; [100 = 7036874417766400 * 2^-46]. *)
Definition f_zero : float := S754_zero false.
Definition f_100 : float := S754_finite false 7036874417766400 (-46).

Definition fmul (x y : float) : float := SFmul prec emax x y.

(** The double nearest to [n / d] (ties to even) with sign [s], for
    [0 <= n] and [0 < d]: the quotient is formed on the exact integers and
    rounded once. *)
Definition float_ratio (s : bool) (n d : Z) : float :=
  match n, d with
  | Z0, Zpos _ => S754_zero s
  | Zpos n', Zpos d' =>
      SFdiv prec emax (S754_finite s n' 0) (S754_finite false d' 0)
  | _, _ => S754_nan
  end.

(** The integer nearest to [m * 2^e], ties to even, for [0 <= m]. *)
Definition round_half_even_scaled (m e : Z) : Z :=
  if 0 <=? e then m * 2 ^ e
  else
    let d := 2 ^ (- e) in
    let q := m / d in
    let r := m mod d in
    match 2 * r ?= d with
    | Lt => q
    | Gt => q + 1
    | Eq => if Z.even q then q else q + 1
    end.

(** The sign of a finite [x] and [|x| * 10^ndigits] rounded to the nearest
    integer, ties to even, on the exact binary value of [x]: the digits
    CPython's decimal conversion gives for [ndigits] places.  [None] for an
    infinity or a NaN. *)
Definition decimal_digits (x : float) (ndigits : nat) : option (bool * Z) :=
  match x with
  | S754_zero s => Some (s, 0)
  | S754_finite s m e =>
      Some (s, round_half_even_scaled (Zpos m * 10 ^ Z.of_nat ndigits) e)
  | S754_infinity _ | S754_nan => None
  end.

(** [round(x, ndigits)] for a float [x] and [0 <= ndigits]: [x] is written
    with [ndigits] decimals and the decimal is read back as the nearest
    double; infinities and NaN round to themselves. *)
Definition py_round (x : float) (ndigits : nat) : float :=
  match decimal_digits x ndigits with
  | Some (s, n) => float_ratio s n (10 ^ Z.of_nat ndigits)
  | None => x
  end.

(** The sign a negative float is written with. *)
Definition sign_text (s : bool) : string :=
  if s then "-" else EmptyString.

(** [f"{x:.1f}"]. *)
Definition format_1f (x : float) : string :=
  match x with
  | S754_nan => "nan"
  | S754_infinity s => sign_text s ++ "inf"
  | _ =>
      match decimal_digits x 1 with
      | Some (s, n) =>
          sign_text s ++ str_int (n / 10) ++ "." ++ str_int (n mod 10)
      | None => "nan"
      end
  end.

(* ================================================================== *)
(** ** Data structures *)

(** [@dataclass(frozen=True) class PitchEntry]. *)
Module PitchEntry.
Record t : Type := mk {
  pitch_num : Z;
  target : string;
  actual : string;
  accuracy : Z  (* 10 exact, 5 neighbor, 0 miss *)
}.
End PitchEntry.

(** The fields of [class PitchTracker]; [target] is [Optional[str]]. *)
Record PitchTracker : Type := mkPitchTracker {
  target : option string;
  pitch_counter : Z;
  pitch_log : list PitchEntry.t
}.

(** [PitchTracker()]: the dataclass defaults. *)
Definition new_tracker : PitchTracker :=
  {| target := None; pitch_counter := 0; pitch_log := [] |}.

(** The snapshot [generate_summary] returns, one record per nested dict. *)
Record SummaryTotals : Type := mkSummaryTotals {
  total_pitches : Z;
  accurate_10 : Z;
  close_5 : Z;
  miss_0 : Z;
  accuracy_pct : float
}.

Record DonutSlice : Type := mkDonutSlice {
  label : string;
  count : Z
}.

Record Heatmap : Type := mkHeatmap {
  zones_order : list (list string);
  labels_grid : list (list string);
  counts_grid : list (list Z);
  counts_by_zone : dict Z
}.

Record Summary : Type := mkSummary {
  summary : SummaryTotals;
  donut : list DonutSlice;
  heatmap : Heatmap;
  log : list PitchEntry.t  (* plain records with the four keys of an entry *)
}.

(* ================================================================== *)
(** ** Exceptions and the method monad *)

Inductive exn : Type :=
| ValueError (msg : string)
| KeyError (key : string)
| ZeroDivisionError.

(** The two validation failures, told apart by their message. *)
Definition InvalidZone (zone : string) : exn :=
  ValueError ("Invalid zone: " ++ zone).
Definition NoTargetSet : exn :=
  ValueError "Please set a target first.".

Inductive outcome (A : Type) : Type :=
| Return (a : A)
| Raise (e : exn).
Arguments Return {A} a.
Arguments Raise {A} e.

(** A method body: from the state of [self] at entry to what the call gives
    back or raises, and the state of [self] at that point. *)
Definition M (A : Type) : Type := PitchTracker -> outcome A * PitchTracker.

Definition ret {A : Type} (a : A) : M A := fun self => (Return a, self).

Definition raise {A : Type} (e : exn) : M A := fun self => (Raise e, self).

Definition bind {A B : Type} (m : M A) (k : A -> M B) : M B :=
  fun self =>
    match m self with
    | (Return a, self') => k a self'
    | (Raise e, self') => (Raise e, self')
    end.

(** Read [self]. *)
Definition gets {A : Type} (f : PitchTracker -> A) : M A :=
  fun self => (Return (f self), self).

(** Write [self]. *)
Definition modify (f : PitchTracker -> PitchTracker) : M unit :=
  fun self => (Return tt, f self).

Declare Scope method_scope.
Delimit Scope method_scope with method.
Notation "x <- m ;; k" := (bind m (fun x => k))
  (at level 100, m at next level, right associativity) : method_scope.
Notation "m ;; k" := (bind m (fun _ => k))
  (at level 100, right associativity) : method_scope.
Local Open Scope method_scope.

Fixpoint mapM {A B : Type} (f : A -> M B) (l : list A) : M (list B) :=
  match l with
  | [] => ret []
  | x :: xs => y <- f x ;; ys <- mapM f xs ;; ret (y :: ys)
  end.

(** [self.target = v], [self.pitch_counter = v], [self.pitch_log = v]. *)
Definition assign_target (v : option string) : M unit :=
  modify (fun self => {| target := v;
                         pitch_counter := pitch_counter self;
                         pitch_log := pitch_log self |}).

Definition assign_pitch_counter (v : Z) : M unit :=
  modify (fun self => {| target := target self;
                         pitch_counter := v;
                         pitch_log := pitch_log self |}).

Definition assign_pitch_log (v : list PitchEntry.t) : M unit :=
  modify (fun self => {| target := target self;
                         pitch_counter := pitch_counter self;
                         pitch_log := v |}).

(** [d[k]]. *)
Definition getitem {V : Type} (d : dict V) (k : string) : M V :=
  match dict_get k d with
  | Some v => ret v
  | None => raise (KeyError k)
  end.

(** [a / b] on integers: the correctly rounded quotient.  (A quotient beyond
    the range of doubles shows as an infinity here; the quotients taken in
    this program are at most 1.) *)
Definition int_truediv (a b : Z) : M float :=
  if b =? 0 then raise ZeroDivisionError
  else ret (float_ratio (xorb (a <? 0) (b <? 0)) (Z.abs a) (Z.abs b)).

(* ================================================================== *)
(** ** Core actions *)

(** [PitchTracker._validate_zone], a static method. *)
Definition _validate_zone (zone : string) : M unit :=
  if negb (list_contains zone ALL_ZONES) then raise (InvalidZone zone)
  else ret tt.

Definition set_target (zone : string) : M unit :=
  _validate_zone zone ;;
  assign_target (Some zone).

(** [not self.target]: [None] and the empty string are falsy. *)
Definition falsy (o : option string) : bool :=
  match o with
  | None => true
  | Some s => String.eqb s EmptyString
  end.

Definition log_pitch (actual : string) : M PitchEntry.t :=
  _validate_zone actual ;;
  tgt <- gets target ;;
  match tgt with
  | None => raise NoTargetSet
  | Some t =>
      if falsy tgt then raise NoTargetSet
      else
        c <- gets pitch_counter ;;
        assign_pitch_counter (if c <? 1 then 1 else c + 1) ;;
        let a := actual in
        let accuracy :=
          if String.eqb t a then 10
          else if is_neighbor t a then 5
          else 0 in
        n <- gets pitch_counter ;;
        let entry := PitchEntry.mk n t a accuracy in
        l <- gets pitch_log ;;
        assign_pitch_log (l ++ [entry]) ;;
        assign_target None ;;
        ret entry
  end.

(** Names for the two expressions of [log_pitch]: the counter after a
    logged pitch, and the score of landing in [a] when aiming at [t]. *)
Definition next_pitch_counter (c : Z) : Z :=
  if c <? 1 then 1 else c + 1.

Definition score (t a : string) : Z :=
  if String.eqb t a then 10
  else if is_neighbor t a then 5
  else 0.

Definition clear_pitch_log : M unit :=
  assign_pitch_log [] ;;
  assign_pitch_counter 0 ;;
  assign_target None.

(* ================================================================== *)
(** ** Summary *)

(** [sum(1 for p in log if p.accuracy == k)]. *)
Definition count_accuracy (k : Z) (l : list PitchEntry.t) : Z :=
  py_sum (map (fun _ => 1)
              (filter (fun p => PitchEntry.accuracy p =? k) l)).

(** [{z: 0 for z in ALL_ZONES}]. *)
Definition zero_counts : dict Z :=
  fold_left (fun d z => dict_set z 0 d) ALL_ZONES [].

(** One turn of the tally loop:
    [if p.actual in counts: counts[p.actual] += 1]. *)
Definition tally_step (counts : dict Z) (p : PitchEntry.t) : dict Z :=
  match dict_get (PitchEntry.actual p) counts with
  | Some v => dict_set (PitchEntry.actual p) (v + 1) counts
  | None => counts
  end.

Definition tally (l : list PitchEntry.t) : dict Z :=
  fold_left tally_step l zero_counts.

(** The local function [fmt] of [generate_summary]; [total] is the variable
    it closes over. *)
Definition fmt (total : Z) (z : string) (v : Z) : M string :=
  if negb (total =? 0) then
    q <- int_truediv v total ;;
    ret (z ++ " (" ++ str_int v ++ ", " ++ format_1f (fmul q f_100) ++ "%)")%string
  else ret (z ++ " (0,0%)")%string.

Definition generate_summary : M Summary :=
  total <- gets (fun self => len (pitch_log self)) ;;
  accurate <- gets (fun self => count_accuracy 10 (pitch_log self)) ;;
  close <- gets (fun self => count_accuracy 5 (pitch_log self)) ;;
  let miss := total - accurate - close in
  accuracy_pct <-
    (if negb (total =? 0) then
       q <- int_truediv (accurate + close) total ;;
       ret (fmul q f_100)
     else ret f_zero) ;;
  counts <- gets (fun self => tally (pitch_log self)) ;;
  heatmap_labels <-
    mapM (mapM (fun z => v <- getitem counts z ;; fmt total z v)) ZONES_ORDER ;;
  heatmap_counts <- mapM (mapM (getitem counts)) ZONES_ORDER ;;
  entries <- gets pitch_log ;;
  ret {| summary := {| total_pitches := total;
                       accurate_10 := accurate;
                       close_5 := close;
                       miss_0 := miss;
                       accuracy_pct := py_round accuracy_pct 1 |};
         donut := [ {| label := "Miss"; count := miss |};
                    {| label := "Close"; count := close |};
                    {| label := "Accurate"; count := accurate |} ];
         heatmap := {| zones_order := ZONES_ORDER;
                       labels_grid := heatmap_labels;
                       counts_grid := heatmap_counts;
                       counts_by_zone := counts |};
         log := map (fun p => PitchEntry.mk (PitchEntry.pitch_num p)
                                            (PitchEntry.target p)
                                            (PitchEntry.actual p)
                                            (PitchEntry.accuracy p)) entries |}.

(* ================================================================== *)
(** ** Sessions: the calls a caller makes on one tracker *)

Inductive call : Type :=
| SetTarget (zone : string)
| LogPitch (actual : string)
| ClearPitchLog
| GenerateSummary.

(** The tracker after one call, whether it returned or raised: a caller
    that catches the exception goes on with the object as the call left
    it. *)
Definition after (c : call) (self : PitchTracker) : PitchTracker :=
  match c with
  | SetTarget zone => snd (set_target zone self)
  | LogPitch actual => snd (log_pitch actual self)
  | ClearPitchLog => snd (clear_pitch_log self)
  | GenerateSummary => snd (generate_summary self)
  end.

(** The tracker after a sequence of calls on a new object. *)
Definition session (cs : list call) : PitchTracker :=
  fold_left (fun self c => after c self) cs new_tracker.

(** [m] run [n] times in a row: the values returned, and the final state;
    [None] as soon as a run raises. *)
Fixpoint repeat_call {A : Type} (m : M A) (n : nat) (self : PitchTracker)
  : option (list A) * PitchTracker :=
  match n with
  | O => (Some [], self)
  | S n' =>
      match m self with
      | (Return a, self') =>
          match repeat_call m n' self' with
          | (Some l, self'') => (Some (a :: l), self'')
          | (None, self'') => (None, self'')
          end
      | (Raise _, self') => (None, self')
      end
  end.

(** The states the data model allows: the target, when there is one, is a
    zone. *)
Definition target_is_zone (self : PitchTracker) : Prop :=
  match target self with
  | None => True
  | Some t => In t ALL_ZONES
  end.

(** The call [m] on [self] raises [e]. *)
Definition raises {A : Type} (m : M A) (self : PitchTracker) (e : exn) : Prop :=
  fst (m self) = Raise e.

(** The double nearest to 66.7, [0x1.0accccccccccdp+6]. *)
Definition f_66_7 : float := S754_finite false 4693595236650189 (-46).

(** A tracker after three pitches aimed at Q1: one exact, one close, one
    miss. *)
Definition three_pitches : PitchTracker :=
  {| target := None;
     pitch_counter := 3;
     pitch_log := [ PitchEntry.mk 1 "Q1" "Q1" 10;
                    PitchEntry.mk 2 "Q1" "Q2" 5;
                    PitchEntry.mk 3 "Q1" "Q9" 0 ] |}.

(** The pairs of zones on which [is_neighbor] depends on the order of its
    arguments. *)
Definition one_way_pairs : list (string * string) :=
  filter (fun p => xorb (is_neighbor (fst p) (snd p))
                        (is_neighbor (snd p) (fst p)))
         (list_prod ALL_ZONES ALL_ZONES).

(** A tracker after two pitches aimed at Q1: one exact, one close. *)
Definition two_hits : PitchTracker :=
  {| target := None;
     pitch_counter := 2;
     pitch_log := [ PitchEntry.mk 1 "Q1" "Q1" 10;
                    PitchEntry.mk 2 "Q1" "Q2" 5 ] |}.

(** The tracker after the calls [cs] made in turn on [self]. *)
Definition run_calls (cs : list call) (self : PitchTracker) : PitchTracker :=
  fold_left (fun s c => after c s) cs self.

(** The number of entries of [l] that landed in [z]. *)
Definition landings (z : string) (l : list PitchEntry.t) : Z :=
  Z.of_nat (count_occ string_dec (map PitchEntry.actual l) z).

(** The text [fmt] returns for the zone [z] holding [v] of [total]
    pitches. *)
Definition label_text (total : Z) (z : string) (v : Z) : string :=
  if total =? 0 then z ++ " (0,0%)"
  else z ++ " (" ++ str_int v ++ ", "
         ++ format_1f (fmul (float_ratio false v total) f_100) ++ "%)".

(** The entries of [l] that landed in one of the 25 zones. *)
Definition landed_in_zone (l : list PitchEntry.t) : list PitchEntry.t :=
  filter (fun p => list_contains (PitchEntry.actual p) ALL_ZONES) l.

(* ================================================================== *)
(** * Properties *)

(** ** Containers *)

Lemma list_contains_In (x : string) (l : list string) :
  list_contains x l = true <-> In x l.
Proof.
  unfold list_contains. rewrite existsb_exists. split.
  - intros [y [Hy Heq]]. apply String.eqb_eq in Heq. now subst.
  - intros H. exists x. split; [exact H | apply String.eqb_refl].
Qed.

Lemma list_contains_not_In (x : string) (l : list string) :
  list_contains x l = false <-> ~ In x l.
Proof.
  rewrite <- list_contains_In. destruct (list_contains x l); split; congruence.
Qed.

Lemma dict_get_In {V : Type} (k : string) (d : dict V) (v : V) :
  dict_get k d = Some v -> In (k, v) d.
Proof.
  induction d as [|[k' v'] d IH]; simpl; [discriminate|].
  destruct (String.eqb_spec k' k) as [->|Hne].
  - intros [= ->]. now left.
  - intros H. right. now apply IH.
Qed.

Lemma dict_get_keys {V : Type} (k : string) (d : dict V) :
  dict_get k d <> None <-> In k (map fst d).
Proof.
  induction d as [|[k' v'] d IH]; simpl.
  - split; [congruence | tauto].
  - destruct (String.eqb_spec k' k) as [->|Hne].
    + split; [now left | discriminate].
    + rewrite IH. split; [now right | intros [H|H]; [contradiction | exact H]].
Qed.

Lemma dict_set_keys {V : Type} (k : string) (v : V) (d : dict V) :
  In k (map fst d) -> map fst (dict_set k v d) = map fst d.
Proof.
  induction d as [|[k' v'] d IH]; simpl; [tauto|].
  destruct (String.eqb_spec k' k) as [->|Hne]; simpl; [reflexivity|].
  intros [H|H]; [contradiction | now rewrite IH].
Qed.

(* ================================================================== *)
(** ** Zone graph *)

Lemma ALL_ZONES_length : List.length ALL_ZONES = 25%nat.
Proof. reflexivity. Qed.

Lemma ALL_ZONES_NoDup : NoDup ALL_ZONES.
Proof.
  unfold ALL_ZONES, ZONES_ORDER; simpl.
  repeat (constructor; [simpl; intuition discriminate|]).
  constructor.
Qed.

Lemma zone_not_empty (z : string) : In z ALL_ZONES -> z <> EmptyString.
Proof.
  intros H ->. apply list_contains_In in H. discriminate H.
Qed.

Lemma NEIGHBORS_keys_are_zones (z : string) :
  In z (map fst NEIGHBORS) -> In z ALL_ZONES.
Proof.
  intros H. apply list_contains_In.
  simpl in H. repeat (destruct H as [<-|H]; [reflexivity|]). destruct H.
Qed.

Lemma NEIGHBORS_values_are_zones (z1 z2 : string) :
  is_neighbor z1 z2 = true -> In z1 ALL_ZONES /\ In z2 ALL_ZONES.
Proof.
  unfold is_neighbor, dict_get_default. intros H.
  destruct (dict_get z1 NEIGHBORS) as [l|] eqn:Hl; [|discriminate H].
  apply list_contains_In in H. apply dict_get_In in Hl.
  rewrite <- !list_contains_In.
  simpl in Hl.
  repeat (destruct Hl as [Hl|Hl];
          [injection Hl as <- <-; simpl in H;
           repeat (destruct H as [<-|H]; [split; reflexivity|]); destruct H|]).
  destruct Hl.
Qed.

(** C8. [is_neighbor z1 z2] is a function of its two arguments (so two calls
    on the same zones agree), and it holds exactly when [NEIGHBORS] has an
    entry for [z1] whose list contains [z2].  The four corners TL, TR, BL
    and BR have no entry, so [is_neighbor c z] is false for a corner [c] and
    every [z]. *)
Theorem is_neighbor_listed :
  (forall z1 z2 : string,
      is_neighbor z1 z2 = true <->
      exists l, dict_get z1 NEIGHBORS = Some l /\ In z2 l) /\
  Forall (fun c => In c ALL_ZONES /\
                   dict_get c NEIGHBORS = None /\
                   forall z, is_neighbor c z = false) CORNERS.
Proof.
  split.
  - intros z1 z2. unfold is_neighbor, dict_get_default.
    destruct (dict_get z1 NEIGHBORS) as [l|].
    + rewrite list_contains_In. split.
      * intros H. now exists l.
      * intros [l' [[= <-] H]]. exact H.
    + simpl. split; [discriminate | intros [l' [H _]]; discriminate H].
  - unfold CORNERS.
    repeat (constructor;
            [split; [apply list_contains_In; reflexivity
                    | split; [reflexivity | intros z; reflexivity]]|]).
    constructor.
Qed.

(** The zones without an entry in [NEIGHBORS] are the corners and no other. *)
Lemma no_entry_iff_corner (z : string) :
  In z ALL_ZONES -> (dict_get z NEIGHBORS = None <-> In z CORNERS).
Proof.
  intros H. simpl in H.
  repeat (destruct H as [<-|H];
          [vm_compute; split; intros H0;
           try discriminate H0; try tauto;
           repeat (destruct H0 as [H0|H0]; try discriminate H0); tauto|]).
  destruct H.
Qed.

(** C3. The adjacency data is not symmetric: T1 lists Q2 while Q2 does not
    list T1, so [is_neighbor] answers differently in the two directions. *)
Theorem NEIGHBORS_T1_Q2_one_way :
  dict_get "T1" NEIGHBORS = Some ["Q1"; "Q2"; "T2"] /\
  dict_get "Q2" NEIGHBORS = Some ["Q1"; "Q3"; "Q5"; "T2"] /\
  is_neighbor "T1" "Q2" = true /\
  is_neighbor "Q2" "T1" = false.
Proof. repeat split. Qed.

Lemma NEIGHBORS_not_symmetric :
  ~ (forall z1 z2, In z1 ALL_ZONES -> In z2 ALL_ZONES ->
                   is_neighbor z1 z2 = is_neighbor z2 z1).
Proof.
  intros H.
  assert (E : is_neighbor "T1" "Q2" = is_neighbor "Q2" "T1")
    by (apply H; apply list_contains_In; reflexivity).
  discriminate E.
Qed.

(** The whole extent of the asymmetry: T1 and T3 each list Q2, and Q2 lists
    neither; every other pair of zones is listed both ways or not at all. *)
Lemma one_way_pairs_eq :
  one_way_pairs = [("T1", "Q2"); ("T3", "Q2"); ("Q2", "T1"); ("Q2", "T3")].
Proof. vm_compute. reflexivity. Qed.

Lemma is_neighbor_sym_elsewhere (z1 z2 : string) :
  In z1 ALL_ZONES -> In z2 ALL_ZONES ->
  ~ In (z1, z2) one_way_pairs ->
  is_neighbor z1 z2 = is_neighbor z2 z1.
Proof.
  intros H1 H2 Hn.
  destruct (is_neighbor z1 z2) eqn:E1, (is_neighbor z2 z1) eqn:E2;
    try reflexivity; exfalso; apply Hn;
    unfold one_way_pairs; apply filter_In;
    (split; [apply in_prod; assumption
            | cbn [fst snd]; rewrite E1, E2; reflexivity]).
Qed.

(* ================================================================== *)
(** ** Heat colors *)

(** C9. On a count [0 <= v], [get_heat_color] gives white for 0, light blue
    for 1..2, medium blue for 3..5 and dark blue from 6 on, and nothing but
    these four colors. *)
Theorem get_heat_color_thresholds (v : Z) (Hv : 0 <= v) :
  (v = 0 -> get_heat_color v = "#ffffff") /\
  (1 <= v <= 2 -> get_heat_color v = "#a3d5ff") /\
  (3 <= v <= 5 -> get_heat_color v = "#3399ff") /\
  (6 <= v -> get_heat_color v = "#004c99") /\
  In (get_heat_color v) HEAT_COLORS.
Proof.
  unfold get_heat_color, HEAT_COLORS.
  destruct (Z.eqb_spec v 0) as [E0|E0];
    destruct (Z.ltb_spec v 3) as [E3|E3];
    destruct (Z.ltb_spec v 6) as [E6|E6];
    repeat split; intros; try lia; try reflexivity; simpl; tauto.
Qed.

Lemma get_heat_color_thresholds_witness :
  0 <= 4 /\
  ((4 = 0 -> get_heat_color 4 = "#ffffff") /\
   (1 <= 4 <= 2 -> get_heat_color 4 = "#a3d5ff") /\
   (3 <= 4 <= 5 -> get_heat_color 4 = "#3399ff") /\
   (6 <= 4 -> get_heat_color 4 = "#004c99") /\
   In (get_heat_color 4) HEAT_COLORS).
Proof.
  split; [lia | apply (get_heat_color_thresholds 4); lia].
Defined.

Example get_heat_color_samples :
  map get_heat_color [0; 1; 2; 3; 5; 6; 40] =
  ["#ffffff"; "#a3d5ff"; "#a3d5ff"; "#3399ff"; "#3399ff"; "#004c99"; "#004c99"].
Proof. reflexivity. Qed.

(* ================================================================== *)
(** ** Core actions, call by call *)

Lemma _validate_zone_run (zone : string) (self : PitchTracker) :
  _validate_zone zone self =
  if list_contains zone ALL_ZONES then (Return tt, self)
  else (Raise (InvalidZone zone), self).
Proof.
  unfold _validate_zone. now destruct (list_contains zone ALL_ZONES).
Qed.

Lemma set_target_run (zone : string) (self : PitchTracker) :
  set_target zone self =
  if list_contains zone ALL_ZONES then
    (Return tt, {| target := Some zone;
                   pitch_counter := pitch_counter self;
                   pitch_log := pitch_log self |})
  else (Raise (InvalidZone zone), self).
Proof.
  unfold set_target, bind. rewrite _validate_zone_run.
  now destruct (list_contains zone ALL_ZONES).
Qed.

(** The entry [log_pitch actual] creates on [self] when it aims at [t]. *)
Lemma log_pitch_run (actual : string) (self : PitchTracker) :
  log_pitch actual self =
  if list_contains actual ALL_ZONES then
    match target self with
    | None => (Raise NoTargetSet, self)
    | Some t =>
        if String.eqb t EmptyString then (Raise NoTargetSet, self)
        else
          let entry :=
            PitchEntry.mk (next_pitch_counter (pitch_counter self)) t actual
                          (score t actual) in
          (Return entry,
           {| target := None;
              pitch_counter := next_pitch_counter (pitch_counter self);
              pitch_log := pitch_log self ++ [entry] |})
    end
  else (Raise (InvalidZone actual), self).
Proof.
  unfold log_pitch, bind. rewrite _validate_zone_run.
  destruct (list_contains actual ALL_ZONES); [|reflexivity].
  unfold gets. destruct self as [[t|] c l]; simpl; [|reflexivity].
  now destruct (String.eqb t EmptyString).
Qed.

Lemma clear_pitch_log_run (self : PitchTracker) :
  clear_pitch_log self = (Return tt, new_tracker).
Proof. reflexivity. Qed.

Lemma InvalidZone_not_NoTargetSet (zone : string) :
  InvalidZone zone <> NoTargetSet.
Proof. discriminate. Qed.

Lemma next_pitch_counter_succ (c : Z) :
  0 <= c -> next_pitch_counter c = c + 1.
Proof.
  intros H. unfold next_pitch_counter.
  destruct (Z.ltb_spec c 1); lia.
Qed.

(** C1. When [actual] is a zone and a target [t] is set ([self.target] is a
    non-empty string, as every zone is), [log_pitch actual] scores 10 if
    [t] equals [actual], 5 if [is_neighbor t actual], else 0; the entry it
    appends carries the new counter (1 when the counter was below 1, one
    more otherwise), the target [t], [actual] and that score; the target is
    left unset; and the entry returned is the one appended. *)
Theorem log_pitch_success (self : PitchTracker) (actual t : string)
    (Hactual : In actual ALL_ZONES)
    (Htarget : target self = Some t) (Hset : t <> EmptyString) :
  let accuracy :=
    if String.eqb t actual then 10
    else if is_neighbor t actual then 5 else 0 in
  let n := if pitch_counter self <? 1 then 1 else pitch_counter self + 1 in
  let entry := PitchEntry.mk n t actual accuracy in
  log_pitch actual self =
    (Return entry,
     {| target := None;
        pitch_counter := n;
        pitch_log := pitch_log self ++ [entry] |}) /\
  (0 <= pitch_counter self -> n = pitch_counter self + 1).
Proof.
  intros accuracy n entry. split.
  - rewrite log_pitch_run.
    apply list_contains_In in Hactual. rewrite Hactual, Htarget.
    apply String.eqb_neq in Hset. rewrite Hset. reflexivity.
  - apply next_pitch_counter_succ.
Qed.

Lemma log_pitch_success_witness :
  In "Q2" ALL_ZONES /\
  target (mkPitchTracker (Some "Q1") 0 []) = Some "Q1" /\
  "Q1" <> EmptyString /\
  log_pitch "Q2" (mkPitchTracker (Some "Q1") 0 []) =
    (Return (PitchEntry.mk 1 "Q1" "Q2" 5),
     mkPitchTracker None 1 [PitchEntry.mk 1 "Q1" "Q2" 5]).
Proof.
  assert (Hz : In "Q2" ALL_ZONES) by (apply list_contains_In; reflexivity).
  assert (Hs : "Q1" <> EmptyString) by discriminate.
  split; [exact Hz | split; [reflexivity | split; [exact Hs |]]].
  exact (proj1 (log_pitch_success (mkPitchTracker (Some "Q1") 0 [])
                                  "Q2" "Q1" Hz eq_refl Hs)).
Defined.

(** The scenarios of the specification, run on a new tracker. *)
Example scenario_exact :
  (set_target "Q1" ;; log_pitch "Q1") new_tracker =
  (Return (PitchEntry.mk 1 "Q1" "Q1" 10),
   mkPitchTracker None 1 [PitchEntry.mk 1 "Q1" "Q1" 10]).
Proof. reflexivity. Qed.

Example scenario_neighbor :
  (set_target "Q1" ;; log_pitch "Q2") new_tracker =
  (Return (PitchEntry.mk 1 "Q1" "Q2" 5),
   mkPitchTracker None 1 [PitchEntry.mk 1 "Q1" "Q2" 5]).
Proof. reflexivity. Qed.

Example scenario_miss :
  (set_target "Q1" ;; log_pitch "Q9") new_tracker =
  (Return (PitchEntry.mk 1 "Q1" "Q9" 0),
   mkPitchTracker None 1 [PitchEntry.mk 1 "Q1" "Q9" 0]).
Proof. reflexivity. Qed.

(** The one-way entries of [NEIGHBORS] show in the scores: aiming at T1 and
    landing in Q2 is close, aiming at Q2 and landing in T1 is a miss. *)
Example scenario_one_way :
  fst ((set_target "T1" ;; log_pitch "Q2") new_tracker) =
    Return (PitchEntry.mk 1 "T1" "Q2" 5) /\
  fst ((set_target "Q2" ;; log_pitch "T1") new_tracker) =
    Return (PitchEntry.mk 1 "Q2" "T1" 0).
Proof. split; reflexivity. Qed.

(* ================================================================== *)
(** ** Errors *)

(** [log_pitch] raises [NoTargetSet] on a zone exactly when [self.target] is
    falsy, on every state. *)
Lemma log_pitch_NoTargetSet_iff (self : PitchTracker) (actual : string) :
  In actual ALL_ZONES ->
  (raises (log_pitch actual) self NoTargetSet <-> falsy (target self) = true).
Proof.
  intros H. apply list_contains_In in H.
  unfold raises. rewrite log_pitch_run, H.
  destruct (target self) as [t|]; simpl; [|tauto].
  destruct (String.eqb t EmptyString); simpl; split; congruence.
Qed.

(** C10. A call of [set_target] or [log_pitch] that raises leaves [self] as
    it was at entry: target, counter and log; and what it raises is one of
    the two validation errors. *)
Theorem raise_leaves_state (self self' : PitchTracker) (zone : string) (e : exn)
    (Hraise : set_target zone self = (Raise e, self') \/
              log_pitch zone self = (Raise e, self')) :
  self' = self /\
  target self' = target self /\
  pitch_counter self' = pitch_counter self /\
  pitch_log self' = pitch_log self /\
  (e = InvalidZone zone \/ e = NoTargetSet).
Proof.
  assert (H : self' = self /\ (e = InvalidZone zone \/ e = NoTargetSet)).
  { destruct Hraise as [H|H].
    - rewrite set_target_run in H.
      destruct (list_contains zone ALL_ZONES); [discriminate H|].
      injection H as <- <-. auto.
    - rewrite log_pitch_run in H.
      destruct (list_contains zone ALL_ZONES).
      + destruct (target self) as [t|].
        * destruct (String.eqb t EmptyString); [|discriminate H].
          injection H as <- <-. auto.
        * injection H as <- <-. auto.
      + injection H as <- <-. auto. }
  destruct H as [-> He]. auto.
Qed.

Lemma raise_leaves_state_witness :
  (set_target "XX" new_tracker = (Raise (InvalidZone "XX"), new_tracker) \/
   log_pitch "XX" new_tracker = (Raise (InvalidZone "XX"), new_tracker)) /\
  (new_tracker = new_tracker /\
   target new_tracker = target new_tracker /\
   pitch_counter new_tracker = pitch_counter new_tracker /\
   pitch_log new_tracker = pitch_log new_tracker /\
   (InvalidZone "XX" = InvalidZone "XX" \/ InvalidZone "XX" = NoTargetSet)).
Proof.
  assert (H : set_target "XX" new_tracker =
                (Raise (InvalidZone "XX"), new_tracker) \/
              log_pitch "XX" new_tracker =
                (Raise (InvalidZone "XX"), new_tracker))
    by (left; reflexivity).
  split; [exact H |].
  exact (raise_leaves_state new_tracker new_tracker "XX" (InvalidZone "XX") H).
Defined.

(* ================================================================== *)
(** ** Summary *)

Lemma mapM_reads {A B : Type} (f : A -> M B) (l : list A) (self : PitchTracker) :
  (forall x, In x l -> exists b, f x self = (Return b, self)) ->
  exists bs, mapM f l self = (Return bs, self).
Proof.
  induction l as [|x xs IH]; intros H; simpl.
  - now exists [].
  - destruct (H x (or_introl eq_refl)) as [b Hb].
    destruct IH as [bs Hbs]; [intros y Hy; apply H; now right|].
    exists (b :: bs). unfold bind. now rewrite Hb, Hbs.
Qed.

Lemma mapM_pure {A B : Type} (f : A -> M B) (g : A -> B) (l : list A)
    (self : PitchTracker) :
  (forall x, In x l -> f x self = (Return (g x), self)) ->
  mapM f l self = (Return (map g l), self).
Proof.
  induction l as [|x xs IH]; intros H; simpl; [reflexivity|].
  unfold bind. rewrite (H x (or_introl eq_refl)).
  rewrite IH; [reflexivity | intros y Hy; apply H; now right].
Qed.

Lemma bind_run {A B : Type} (m : M A) (k : A -> M B)
    (self self' : PitchTracker) (a : A) :
  m self = (Return a, self') -> bind m k self = k a self'.
Proof. intros H. unfold bind. now rewrite H. Qed.

Lemma bind_gets {A B : Type} (f : PitchTracker -> A) (k : A -> M B)
    (self : PitchTracker) :
  bind (gets f) k self = k (f self) self.
Proof. reflexivity. Qed.

Lemma py_sum_ones {A : Type} (l : list A) :
  py_sum (map (fun _ => 1) l) = len l.
Proof.
  unfold py_sum, len.
  assert (G : forall acc, fold_left Z.add (map (fun _ : A => 1) l) acc =
                          acc + Z.of_nat (List.length l)).
  { induction l as [|x xs IH]; intros acc; simpl List.length; simpl fold_left.
    - lia.
    - rewrite IH. lia. }
  rewrite G. lia.
Qed.

(** [count_accuracy k] counts the entries whose accuracy is [k]. *)
Lemma count_accuracy_count_occ (k : Z) (l : list PitchEntry.t) :
  count_accuracy k l =
  Z.of_nat (count_occ Z.eq_dec (map PitchEntry.accuracy l) k).
Proof.
  unfold count_accuracy. rewrite py_sum_ones. unfold len. f_equal.
  induction l as [|p ps IH]; simpl; [reflexivity|].
  destruct (Z.eqb_spec (PitchEntry.accuracy p) k) as [E|E];
    destruct (Z.eq_dec (PitchEntry.accuracy p) k); try contradiction;
    simpl; now rewrite IH.
Qed.

Lemma count_accuracy_nonneg (k : Z) (l : list PitchEntry.t) :
  0 <= count_accuracy k l.
Proof. rewrite count_accuracy_count_occ. lia. Qed.

(** The tally keeps one count per zone, in the order of [ALL_ZONES]. *)
Lemma zero_counts_eq : zero_counts = map (fun z => (z, 0)) ALL_ZONES.
Proof. reflexivity. Qed.

Lemma tally_step_keys (counts : dict Z) (p : PitchEntry.t) :
  map fst (tally_step counts p) = map fst counts.
Proof.
  unfold tally_step.
  destruct (dict_get (PitchEntry.actual p) counts) eqn:E; [|reflexivity].
  apply dict_set_keys. apply dict_get_keys. congruence.
Qed.

Lemma tally_keys (l : list PitchEntry.t) : map fst (tally l) = ALL_ZONES.
Proof.
  unfold tally.
  assert (G : forall counts,
             map fst (fold_left tally_step l counts) = map fst counts).
  { induction l as [|p ps IH]; intros counts; simpl; [reflexivity|].
    now rewrite IH, tally_step_keys. }
  rewrite G. reflexivity.
Qed.

Lemma getitem_tally (l : list PitchEntry.t) (z : string) (self : PitchTracker) :
  In z ALL_ZONES ->
  getitem (tally l) z self = (Return (dict_get_default z 0 (tally l)), self).
Proof.
  intros H. rewrite <- (tally_keys l) in H. apply dict_get_keys in H.
  unfold getitem, dict_get_default.
  destruct (dict_get z (tally l)); [reflexivity | contradiction].
Qed.

Lemma row_in_ALL_ZONES (row : list string) (z : string) :
  In row ZONES_ORDER -> In z row -> In z ALL_ZONES.
Proof.
  intros Hrow Hz. unfold ALL_ZONES. apply in_concat. now exists row.
Qed.

Lemma fmt_reads (total : Z) (z : string) (v : Z) (self : PitchTracker) :
  exists text, fmt total z v self = (Return text, self).
Proof.
  unfold fmt, bind, int_truediv.
  destruct (total =? 0); simpl; eexists; reflexivity.
Qed.

Lemma entry_records_id (l : list PitchEntry.t) :
  map (fun p => PitchEntry.mk (PitchEntry.pitch_num p) (PitchEntry.target p)
                              (PitchEntry.actual p) (PitchEntry.accuracy p)) l
  = l.
Proof.
  induction l as [|[n t a s] l IH]; simpl; [reflexivity | now rewrite IH].
Qed.

(** The float [generate_summary] rounds: the share of accurate and close
    pitches times 100, or [0.0] on an empty log. *)
Lemma accuracy_pct_run (total k : Z) (self : PitchTracker) :
  0 <= k -> 0 <= total ->
  (if negb (total =? 0)
   then bind (int_truediv k total) (fun q => ret (fmul q f_100))
   else ret f_zero) self =
  (Return (if total =? 0 then f_zero
           else fmul (float_ratio false k total) f_100), self).
Proof.
  intros Hk Ht. destruct (Z.eqb_spec total 0) as [E|E]; simpl; [reflexivity|].
  unfold bind, int_truediv. apply Z.eqb_neq in E. rewrite E. unfold ret.
  replace (k <? 0) with false by (symmetry; apply Z.ltb_ge; lia).
  replace (total <? 0) with false by (symmetry; apply Z.ltb_ge; lia).
  now rewrite !Z.abs_eq by lia.
Qed.

(** [generate_summary] returns, leaves [self] as it was, and what it returns
    is read off the log. *)
Lemma generate_summary_run (self : PitchTracker) :
  let l := pitch_log self in
  let total := len l in
  let accurate := count_accuracy 10 l in
  let close := count_accuracy 5 l in
  exists labels,
    generate_summary self =
    (Return
       {| summary :=
            {| total_pitches := total;
               accurate_10 := accurate;
               close_5 := close;
               miss_0 := total - accurate - close;
               accuracy_pct :=
                 py_round (if total =? 0 then f_zero
                           else fmul (float_ratio false (accurate + close) total)
                                     f_100) 1 |};
          donut := [ {| label := "Miss"; count := total - accurate - close |};
                     {| label := "Close"; count := close |};
                     {| label := "Accurate"; count := accurate |} ];
          heatmap :=
            {| zones_order := ZONES_ORDER;
               labels_grid := labels;
               counts_grid :=
                 map (map (fun z => dict_get_default z 0 (tally l))) ZONES_ORDER;
               counts_by_zone := tally l |};
          log := l |},
     self).
Proof.
  intros l total accurate close.
  assert (Hlabels : exists labels,
             mapM (mapM (fun z => bind (getitem (tally l) z) (fun v => fmt total z v)))
                  ZONES_ORDER self = (Return labels, self)).
  { apply mapM_reads. intros row Hrow. apply mapM_reads. intros z Hz.
    unfold bind. rewrite getitem_tally by (eapply row_in_ALL_ZONES; eassumption).
    apply fmt_reads. }
  destruct Hlabels as [labels Hlabels]. exists labels.
  assert (Hcounts :
            mapM (mapM (getitem (tally l))) ZONES_ORDER self =
            (Return (map (map (fun z => dict_get_default z 0 (tally l)))
                         ZONES_ORDER), self)).
  { apply mapM_pure. intros row Hrow. apply mapM_pure. intros z Hz.
    apply getitem_tally. eapply row_in_ALL_ZONES; eassumption. }
  unfold generate_summary.
  rewrite !bind_gets. fold l total accurate close.
  rewrite (bind_run _ _ _ _ _
             (accuracy_pct_run total (accurate + close) self
                (Z.add_nonneg_nonneg _ _ (count_accuracy_nonneg 10 l)
                                         (count_accuracy_nonneg 5 l))
                (Nat2Z.is_nonneg _))).
  rewrite bind_gets. fold l.
  rewrite (bind_run _ _ _ _ _ Hlabels), (bind_run _ _ _ _ _ Hcounts).
  rewrite bind_gets. fold l. rewrite entry_records_id. reflexivity.
Qed.

(** *** Rounding to one decimal *)

(** [round_half_even_scaled m e] is an integer nearest to [m * 2^e]: for
    [e < 0] it is within one half of [m / 2^-e]. *)
Lemma round_half_even_scaled_nearest (m e : Z) :
  0 <= m -> e < 0 ->
  2 * Z.abs (round_half_even_scaled m e * 2 ^ (- e) - m) <= 2 ^ (- e).
Proof.
  intros Hm He. unfold round_half_even_scaled.
  destruct (Z.leb_spec 0 e) as [H|_]; [lia|].
  assert (Hd : 0 < 2 ^ (- e)) by (apply Z.pow_pos_nonneg; lia).
  set (d := 2 ^ (- e)) in *.
  pose proof (Z.div_mod m d ltac:(lia)) as Hdiv.
  pose proof (Z.mod_pos_bound m d Hd) as Hr.
  set (q := m / d) in *. set (r := m mod d) in *.
  destruct (Z.compare_spec (2 * r) d) as [E|E|E].
  - destruct (Z.even q); nia.
  - nia.
  - nia.
Qed.

(** [round(x, 1)] on a finite [x = m * 2^e]: the double nearest to [n / 10],
    for [n] the integer nearest to [10 * x], ties to even. *)
Lemma py_round_tenths (s : bool) (m : positive) (e : Z) :
  py_round (S754_finite s m e) 1 =
  float_ratio s (round_half_even_scaled (Zpos m * 10) e) 10.
Proof. reflexivity. Qed.

Lemma py_round_zero : py_round f_zero 1 = f_zero.
Proof. reflexivity. Qed.

(** [py_round] on values Python's documentation and practice record:
    [round(2.675, 2)] is 2.67 and [round(0.15, 1)] is 0.1, the doubles lying
    just below the decimals written; [round(0.25, 1)] is 0.2, an exact tie
    going to the even digit; [round(0.05, 1)] is 0.1. *)
Example py_round_samples :
  py_round (float_ratio false 2675 1000) 2 = float_ratio false 267 100 /\
  py_round (float_ratio false 15 100) 1 = float_ratio false 1 10 /\
  py_round (float_ratio false 25 100) 1 = float_ratio false 2 10 /\
  py_round (float_ratio false 5 100) 1 = float_ratio false 1 10.
Proof. repeat split; vm_compute; reflexivity. Qed.

Example format_1f_samples :
  map format_1f [ f_zero; f_66_7; f_100; float_ratio false 25 100;
                  float_ratio true 1 100 ] =
  [ "0.0"; "66.7"; "100.0"; "0.2"; "-0.0" ]%string.
Proof. vm_compute. reflexivity. Qed.

(** [f_66_7] is the double next to 66.7: it is the correctly rounded
    quotient 667 / 10, and [10 * f_66_7] is within half a unit in the last
    place of 667. *)
Lemma f_66_7_nearest :
  f_66_7 = float_ratio false 667 10 /\
  Z.abs (10 * 4693595236650189 - 667 * 2 ^ 46) <= 5.
Proof. split; [vm_compute; reflexivity | vm_compute; discriminate]. Qed.

Lemma f_100_exact : f_100 = float_ratio false 100 1 /\ 7036874417766400 = 100 * 2 ^ 46.
Proof. split; vm_compute; reflexivity. Qed.

(** C5. The summary counts the log ([total]), the entries of accuracy 10
    ([accurate]) and of accuracy 5 ([close]), and gives [miss] as
    [total - accurate - close].  Its [accuracy_pct] is 0.0 on an empty log
    and otherwise the float [(accurate + close) / total * 100] rounded to
    one decimal.  A log with accuracies [10, 5, 0] gives totals 3, 1, 1, 1
    and 66.7. *)
Theorem summary_accuracy_pct (self : PitchTracker) :
  let l := pitch_log self in
  let total := len l in
  let accurate := Z.of_nat (count_occ Z.eq_dec (map PitchEntry.accuracy l) 10) in
  let close := Z.of_nat (count_occ Z.eq_dec (map PitchEntry.accuracy l) 5) in
  exists s,
    generate_summary self = (Return s, self) /\
    total_pitches (summary s) = total /\
    accurate_10 (summary s) = accurate /\
    close_5 (summary s) = close /\
    miss_0 (summary s) = total - accurate - close /\
    (total = 0 -> accuracy_pct (summary s) = f_zero) /\
    (0 < total ->
     accuracy_pct (summary s) =
     py_round (fmul (float_ratio false (accurate + close) total) f_100) 1) /\
    (map PitchEntry.accuracy l = [10; 5; 0] ->
     summary s = {| total_pitches := 3; accurate_10 := 1; close_5 := 1;
                    miss_0 := 1; accuracy_pct := f_66_7 |}).
Proof.
  intros l total accurate close.
  destruct (generate_summary_run self) as [labels Hrun].
  fold l total in Hrun.
  rewrite !count_accuracy_count_occ in Hrun. fold l accurate close in Hrun.
  eexists. split; [exact Hrun|]. cbn [summary total_pitches accurate_10
                                       close_5 miss_0 accuracy_pct].
  repeat split.
  - intros ->. reflexivity.
  - intros H. destruct (Z.eqb_spec total 0); [lia | reflexivity].
  - intros H.
    assert (Ht : total = 3).
    { unfold total, len. rewrite <- (length_map PitchEntry.accuracy), H.
      reflexivity. }
    assert (Ha : accurate = 1) by (unfold accurate; rewrite H; reflexivity).
    assert (Hc : close = 1) by (unfold close; rewrite H; reflexivity).
    rewrite Ht, Ha, Hc. vm_compute. reflexivity.
Qed.

Lemma summary_accuracy_pct_witness :
  map PitchEntry.accuracy (pitch_log three_pitches) = [10; 5; 0] /\
  0 < len (pitch_log three_pitches) /\
  exists s,
    generate_summary three_pitches = (Return s, three_pitches) /\
    summary s = {| total_pitches := 3; accurate_10 := 1; close_5 := 1;
                   miss_0 := 1; accuracy_pct := f_66_7 |}.
Proof.
  split; [reflexivity | split; [reflexivity |]].
  destruct (summary_accuracy_pct three_pitches)
    as [s [Hrun [_ [_ [_ [_ [_ [_ H]]]]]]]].
  exists s. split; [exact Hrun | apply H; reflexivity].
Defined.

Example three_pitches_session :
  session [ SetTarget "Q1"; LogPitch "Q1"; SetTarget "Q1"; LogPitch "Q2";
            SetTarget "Q1"; LogPitch "Q9" ] = three_pitches.
Proof. vm_compute. reflexivity. Qed.

(** Shares that fall between two tenths: 1/3, 1/8, 5/6 and 1/1 of the
    pitches give 33.3, 12.5, 83.3 and 100.0. *)
Example accuracy_pct_samples :
  map (fun p => py_round (fmul (float_ratio false (fst p) (snd p)) f_100) 1)
      [(1, 3); (1, 8); (5, 6); (1, 1)] =
  [ float_ratio false 333 10; float_ratio false 125 10;
    float_ratio false 833 10; float_ratio false 1000 10 ].
Proof. vm_compute. reflexivity. Qed.

(** The tally of the specification's scenario: Q1 twice and Q2 once. *)
Example scenario_counts :
  let l := [ PitchEntry.mk 1 "Q1" "Q1" 10; PitchEntry.mk 2 "Q1" "Q1" 10;
             PitchEntry.mk 3 "Q1" "Q2" 5 ] in
  tally l =
  map (fun z => (z, if String.eqb z "Q1" then 2
                    else if String.eqb z "Q2" then 1 else 0)) ALL_ZONES.
Proof. vm_compute. reflexivity. Qed.

(** C6. [clear_pitch_log] returns on every state and leaves an empty log, a
    counter of 0 and no target; the summary taken then has no pitches, an
    [accuracy_pct] of 0.0 and a count of 0 for each of the 25 zones, in
    [counts_by_zone] and in the 5 x 5 [counts_grid]. *)
Theorem clear_pitch_log_resets (self : PitchTracker) :
  clear_pitch_log self =
    (Return tt, {| target := None; pitch_counter := 0; pitch_log := [] |}) /\
  exists s,
    generate_summary (snd (clear_pitch_log self)) =
      (Return s, snd (clear_pitch_log self)) /\
    total_pitches (summary s) = 0 /\
    accuracy_pct (summary s) = f_zero /\
    counts_by_zone (heatmap s) = map (fun z => (z, 0)) ALL_ZONES /\
    List.length (counts_by_zone (heatmap s)) = 25%nat /\
    counts_grid (heatmap s) = repeat (repeat 0 5) 5.
Proof.
  split; [reflexivity|].
  rewrite clear_pitch_log_run. cbn [snd].
  destruct (generate_summary_run new_tracker) as [labels Hrun].
  eexists. split; [exact Hrun|].
  repeat split.
Qed.

(** C7. [generate_summary] returns a snapshot and leaves [self] as it was:
    target, counter and log.  Called any number of times in a row, it
    returns that same snapshot each time. *)
Theorem generate_summary_pure (self : PitchTracker) :
  exists s,
    generate_summary self = (Return s, self) /\
    target (snd (generate_summary self)) = target self /\
    pitch_counter (snd (generate_summary self)) = pitch_counter self /\
    pitch_log (snd (generate_summary self)) = pitch_log self /\
    forall n, repeat_call generate_summary n self = (Some (repeat s n), self).
Proof.
  destruct (generate_summary_run self) as [labels Hrun].
  eexists. split; [exact Hrun|]. rewrite Hrun. cbn [snd].
  repeat split.
  induction n as [|n IH]; simpl; [reflexivity|].
  now rewrite Hrun, IH.
Qed.

(* ================================================================== *)
(** ** Sessions *)

Lemma after_GenerateSummary (self : PitchTracker) :
  after GenerateSummary self = self.
Proof.
  simpl. destruct (generate_summary_run self) as [labels Hrun].
  now rewrite Hrun.
Qed.

(** Every call keeps the target, when there is one, a zone. *)
Lemma after_target_is_zone (c : call) (self : PitchTracker) :
  target_is_zone self -> target_is_zone (after c self).
Proof.
  intros H. destruct c as [zone|actual| |].
  - simpl. rewrite set_target_run.
    destruct (list_contains zone ALL_ZONES) eqn:E; [|exact H].
    apply list_contains_In in E. exact E.
  - simpl. rewrite log_pitch_run.
    destruct (list_contains actual ALL_ZONES); [|exact H].
    destruct (target self) as [t|]; [|exact H].
    destruct (String.eqb t EmptyString); [exact H | exact I].
  - exact I.
  - now rewrite after_GenerateSummary.
Qed.

(** Every call keeps the counter equal to the length of the log and the
    pitch numbers equal to 1, 2, ... in log order. *)
Lemma after_counter (c : call) (self : PitchTracker) :
  pitch_counter self = len (pitch_log self) ->
  map PitchEntry.pitch_num (pitch_log self) =
    map Z.of_nat (seq 1 (List.length (pitch_log self))) ->
  pitch_counter (after c self) = len (pitch_log (after c self)) /\
  map PitchEntry.pitch_num (pitch_log (after c self)) =
    map Z.of_nat (seq 1 (List.length (pitch_log (after c self)))).
Proof.
  intros Hc Hn. destruct c as [zone|actual| |].
  - simpl. rewrite set_target_run.
    destruct (list_contains zone ALL_ZONES); auto.
  - simpl. rewrite log_pitch_run.
    destruct (list_contains actual ALL_ZONES); [|auto].
    destruct (target self) as [t|]; [|auto].
    destruct (String.eqb t EmptyString); [auto|].
    cbn [snd pitch_counter pitch_log].
    rewrite next_pitch_counter_succ by (rewrite Hc; apply Nat2Z.is_nonneg).
    unfold len in *. rewrite length_app, map_app, Hn. cbn [List.length map].
    rewrite Nat.add_1_r, seq_S, map_app. cbn [map PitchEntry.pitch_num].
    split; [lia|]. do 2 f_equal. lia.
  - split; reflexivity.
  - rewrite after_GenerateSummary. auto.
Qed.

Lemma session_snoc (cs : list call) (c : call) :
  session (cs ++ [c]) = after c (session cs).
Proof. unfold session. now rewrite fold_left_app. Qed.

Lemma session_target_is_zone (cs : list call) : target_is_zone (session cs).
Proof.
  induction cs as [|c cs IH] using rev_ind; [exact I|].
  rewrite session_snoc. now apply after_target_is_zone.
Qed.

(** C2. After any sequence of calls on a new tracker, each of which returned
    or raised, the counter is the length of the log and the pitch numbers of
    the log are 1, 2, ..., N in order. *)
Theorem session_counter_matches_log (cs : list call) :
  pitch_counter (session cs) = len (pitch_log (session cs)) /\
  map PitchEntry.pitch_num (pitch_log (session cs)) =
    map Z.of_nat (seq 1 (List.length (pitch_log (session cs)))).
Proof.
  induction cs as [|c cs [IHc IHn]] using rev_ind.
  - split; reflexivity.
  - rewrite session_snoc. now apply after_counter.
Qed.

Example session_sample :
  session [ LogPitch "Q1"; SetTarget "Q1"; LogPitch "Q1"; LogPitch "Q2";
            SetTarget "nowhere"; SetTarget "T1"; GenerateSummary;
            LogPitch "Q2" ] =
  mkPitchTracker None 2 [ PitchEntry.mk 1 "Q1" "Q1" 10;
                          PitchEntry.mk 2 "T1" "Q2" 5 ].
Proof. vm_compute. reflexivity. Qed.

(** A tracker on which [set_target] was never called has no target. *)
Lemma no_set_target_no_target (cs : list call) :
  (forall zone, ~ In (SetTarget zone) cs) -> target (session cs) = None.
Proof.
  induction cs as [|c cs IH] using rev_ind; intros Hn; [reflexivity|].
  rewrite session_snoc.
  assert (Hs : target (session cs) = None).
  { apply IH. intros zone Hin. apply (Hn zone), in_or_app. now left. }
  destruct c as [zone|actual| |].
  - exfalso. apply (Hn zone), in_or_app. right. now left.
  - simpl. rewrite log_pitch_run.
    destruct (list_contains actual ALL_ZONES); [|exact Hs].
    now rewrite Hs.
  - reflexivity.
  - now rewrite after_GenerateSummary.
Qed.

(** What [log_pitch] raises, on every state. *)
Lemma log_pitch_raises_iff (self : PitchTracker) (actual : string) (e : exn) :
  raises (log_pitch actual) self e <->
  (~ In actual ALL_ZONES /\ e = InvalidZone actual) \/
  (In actual ALL_ZONES /\ falsy (target self) = true /\ e = NoTargetSet).
Proof.
  unfold raises. rewrite log_pitch_run.
  destruct (list_contains actual ALL_ZONES) eqn:E.
  - apply list_contains_In in E.
    destruct (target self) as [t|]; simpl.
    + destruct (String.eqb t EmptyString); simpl.
      * split; [intros [= <-]; right; auto | intros [[H _]|[_ [_ ->]]]; tauto].
      * split; [discriminate | intros [[H _]|[_ [H _]]]; [tauto | discriminate]].
    + split; [intros [= <-]; right; auto | intros [[H _]|[_ [_ ->]]]; tauto].
  - apply list_contains_not_In in E. simpl.
    split; [intros [= <-]; left; auto
           | intros [[_ ->]|[H _]]; [reflexivity | contradiction]].
Qed.

Lemma falsy_iff_None (self : PitchTracker) :
  target_is_zone self -> (falsy (target self) = true <-> target self = None).
Proof.
  unfold target_is_zone. destruct (target self) as [t|]; simpl; [|tauto].
  intros H. apply zone_not_empty, String.eqb_neq in H. rewrite H.
  split; discriminate.
Qed.

(** C4. [set_target zone] and [log_pitch zone] raise [InvalidZone] exactly
    when [zone] is not one of the 25 labels.  On a zone, [log_pitch] raises
    [NoTargetSet] exactly when the target is unset: so it does on a tracker
    on which [set_target] was never called, after [clear_pitch_log] and
    after a [log_pitch] that returned.  On a string that is not a zone it
    raises [InvalidZone] also when the target is unset. *)
Theorem validation_errors (self : PitchTracker) (zone : string) :
  (NoDup ALL_ZONES /\ List.length ALL_ZONES = 25%nat) /\
  (raises (set_target zone) self (InvalidZone zone) <-> ~ In zone ALL_ZONES) /\
  (raises (log_pitch zone) self (InvalidZone zone) <-> ~ In zone ALL_ZONES) /\
  (In zone ALL_ZONES -> target_is_zone self ->
   (raises (log_pitch zone) self NoTargetSet <-> target self = None)) /\
  (In zone ALL_ZONES ->
   (forall cs, (forall z, ~ In (SetTarget z) cs) ->
               raises (log_pitch zone) (session cs) NoTargetSet) /\
   raises (log_pitch zone) (snd (clear_pitch_log self)) NoTargetSet /\
   (forall actual entry self',
       log_pitch actual self = (Return entry, self') ->
       raises (log_pitch zone) self' NoTargetSet)) /\
  (~ In zone ALL_ZONES -> target self = None ->
   raises (log_pitch zone) self (InvalidZone zone) /\
   ~ raises (log_pitch zone) self NoTargetSet).
Proof.
  split; [split; [exact ALL_ZONES_NoDup | reflexivity]|].
  split; [|split; [|split; [|split]]].
  - unfold raises. rewrite set_target_run.
    destruct (list_contains zone ALL_ZONES) eqn:E; cbn [fst].
    + apply list_contains_In in E. split; [discriminate | contradiction].
    + apply list_contains_not_In in E. split; auto.
  - rewrite log_pitch_raises_iff. split.
    + intros [[H _]|[_ [_ H]]]; [exact H|].
      now apply InvalidZone_not_NoTargetSet in H.
    + intros H. left. auto.
  - intros Hz Ht. rewrite log_pitch_NoTargetSet_iff by exact Hz.
    now apply falsy_iff_None.
  - intros Hz. split; [|split].
    + intros cs Hcs. apply log_pitch_NoTargetSet_iff; [exact Hz|].
      now rewrite no_set_target_no_target.
    + now apply log_pitch_NoTargetSet_iff.
    + intros actual entry self' Hrun.
      apply log_pitch_NoTargetSet_iff; [exact Hz|].
      rewrite log_pitch_run in Hrun.
      destruct (list_contains actual ALL_ZONES); [|discriminate Hrun].
      destruct (target self) as [t|]; [|discriminate Hrun].
      destruct (String.eqb t EmptyString); [discriminate Hrun|].
      injection Hrun as _ <-. reflexivity.
  - intros Hz Ht. split.
    + apply log_pitch_raises_iff. left. auto.
    + rewrite log_pitch_raises_iff. intros [[_ H]|[H _]]; [|tauto].
      symmetry in H. now apply InvalidZone_not_NoTargetSet in H.
Qed.

Lemma validation_errors_witness :
  In "Q5" ALL_ZONES /\
  target_is_zone new_tracker /\
  (raises (log_pitch "Q5") new_tracker NoTargetSet <->
   target new_tracker = None) /\
  ~ In "home" ALL_ZONES /\
  target new_tracker = None /\
  raises (log_pitch "home") new_tracker (InvalidZone "home").
Proof.
  assert (Hz : In "Q5" ALL_ZONES) by (apply list_contains_In; reflexivity).
  assert (Hn : ~ In "home" ALL_ZONES)
    by (apply list_contains_not_In; reflexivity).
  split; [exact Hz | split; [exact I | split]].
  - exact (proj1 (proj2 (proj2 (proj2
             (validation_errors new_tracker "Q5")))) Hz I).
  - split; [exact Hn | split; [reflexivity |]].
    exact (proj1 (proj2 (proj2 (proj2 (proj2 (proj2
             (validation_errors new_tracker "home"))))) Hn eq_refl)).
Defined.

(* ================================================================== *)
(** * Further properties of the tracker and its summary *)

(** ** Dictionaries *)

Lemma dict_get_set_same {V : Type} (k : string) (v : V) (d : dict V) :
  dict_get k (dict_set k v d) = Some v.
Proof.
  induction d as [|[k' v'] d IH]; simpl.
  - now rewrite String.eqb_refl.
  - destruct (String.eqb k' k) eqn:E; simpl; rewrite E; [reflexivity | exact IH].
Qed.

Lemma dict_get_set_other {V : Type} (k k0 : string) (v : V) (d : dict V) :
  k0 <> k -> dict_get k0 (dict_set k v d) = dict_get k0 d.
Proof.
  intros Hne. induction d as [|[k' v'] d IH]; simpl.
  - destruct (String.eqb_spec k k0); [congruence | reflexivity].
  - destruct (String.eqb_spec k' k) as [->|E]; simpl.
    + destruct (String.eqb_spec k k0); [congruence | reflexivity].
    + destruct (String.eqb k' k0); [reflexivity | exact IH].
Qed.

(** A dict without repeated keys is its keys paired with their values. *)
Lemma dict_by_keys (d : dict Z) :
  NoDup (map fst d) ->
  d = map (fun k => (k, dict_get_default k 0 d)) (map fst d).
Proof.
  induction d as [|[k v] d IH]; simpl; intros Hnd; [reflexivity|].
  inversion Hnd as [|? ? Hnotin Hnd']; subst.
  unfold dict_get_default at 1. simpl. rewrite String.eqb_refl. f_equal.
  rewrite IH at 1 by exact Hnd'.
  apply map_ext_in. intros k0 Hk0.
  unfold dict_get_default. simpl.
  destruct (String.eqb_spec k k0) as [->|_]; [contradiction | reflexivity].
Qed.

(** ** The tally *)

Lemma landings_nonneg (z : string) (l : list PitchEntry.t) : 0 <= landings z l.
Proof. unfold landings. lia. Qed.

Lemma landings_cons (z : string) (p : PitchEntry.t) (l : list PitchEntry.t) :
  landings z (p :: l) =
  (if String.eqb (PitchEntry.actual p) z then 1 else 0) + landings z l.
Proof.
  unfold landings. rewrite map_cons.
  destruct (String.eqb_spec (PitchEntry.actual p) z) as [E|E]; cbv iota.
  - rewrite (count_occ_cons_eq string_dec _ E). lia.
  - rewrite (count_occ_cons_neq string_dec _ E). lia.
Qed.

Lemma landings_app (z : string) (l1 l2 : list PitchEntry.t) :
  landings z (l1 ++ l2) = landings z l1 + landings z l2.
Proof.
  unfold landings. rewrite map_app, count_occ_app. lia.
Qed.

Lemma tally_step_get (counts : dict Z) (p : PitchEntry.t) (z : string) :
  dict_get z (tally_step counts p) =
  option_map (fun v => (if String.eqb (PitchEntry.actual p) z then 1 else 0) + v)
             (dict_get z counts).
Proof.
  unfold tally_step.
  destruct (String.eqb_spec (PitchEntry.actual p) z) as [->|Hne].
  - destruct (dict_get z counts) as [v|] eqn:E.
    + rewrite dict_get_set_same. simpl. now rewrite Z.add_comm.
    + now rewrite E.
  - destruct (dict_get (PitchEntry.actual p) counts) as [v|].
    + rewrite dict_get_set_other by congruence.
      now destruct (dict_get z counts).
    + now destruct (dict_get z counts).
Qed.

Lemma fold_tally_get (l : list PitchEntry.t) (counts : dict Z) (z : string) :
  dict_get z (fold_left tally_step l counts) =
  option_map (fun v => landings z l + v) (dict_get z counts).
Proof.
  revert counts. induction l as [|p l IH]; intros counts; simpl fold_left.
  - now destruct (dict_get z counts).
  - rewrite IH, tally_step_get, landings_cons.
    destruct (dict_get z counts); simpl; [|reflexivity].
    now rewrite Z.add_assoc, (Z.add_comm (landings z l)).
Qed.

Lemma zero_counts_get (z : string) :
  dict_get z zero_counts = if list_contains z ALL_ZONES then Some 0 else None.
Proof.
  rewrite zero_counts_eq. unfold list_contains.
  induction ALL_ZONES as [|k ks IH]; simpl; [reflexivity|].
  rewrite (String.eqb_sym z k). destruct (String.eqb k z); [reflexivity | exact IH].
Qed.

Lemma tally_get (l : list PitchEntry.t) (z : string) :
  dict_get z (tally l) =
  if list_contains z ALL_ZONES then Some (landings z l) else None.
Proof.
  unfold tally. rewrite fold_tally_get, zero_counts_get.
  destruct (list_contains z ALL_ZONES); simpl; [|reflexivity].
  now rewrite Z.add_0_r.
Qed.

Lemma tally_get_default (l : list PitchEntry.t) (z : string) :
  In z ALL_ZONES -> dict_get_default z 0 (tally l) = landings z l.
Proof.
  intros H. apply list_contains_In in H.
  unfold dict_get_default. now rewrite tally_get, H.
Qed.

Lemma tally_explicit (l : list PitchEntry.t) :
  tally l = map (fun z => (z, landings z l)) ALL_ZONES.
Proof.
  rewrite (dict_by_keys (tally l)) by (rewrite tally_keys; exact ALL_ZONES_NoDup).
  rewrite tally_keys. apply map_ext_in. intros z Hz.
  now rewrite tally_get_default.
Qed.

(** ** The snapshot, read off the log *)

Lemma fmt_run (total : Z) (z : string) (v : Z) (self : PitchTracker) :
  0 <= v -> 0 <= total ->
  fmt total z v self = (Return (label_text total z v), self).
Proof.
  intros Hv Ht. unfold fmt, label_text.
  destruct (Z.eqb_spec total 0) as [E|E]; simpl; [reflexivity|].
  unfold bind, int_truediv. apply Z.eqb_neq in E. rewrite E. unfold ret.
  replace (v <? 0) with false by (symmetry; apply Z.ltb_ge; lia).
  replace (total <? 0) with false by (symmetry; apply Z.ltb_ge; lia).
  now rewrite !Z.abs_eq by lia.
Qed.

Lemma generate_summary_explicit (self : PitchTracker) :
  let l := pitch_log self in
  let total := len l in
  let accurate := count_accuracy 10 l in
  let close := count_accuracy 5 l in
  generate_summary self =
  (Return
     {| summary :=
          {| total_pitches := total;
             accurate_10 := accurate;
             close_5 := close;
             miss_0 := total - accurate - close;
             accuracy_pct :=
               py_round (if total =? 0 then f_zero
                         else fmul (float_ratio false (accurate + close) total)
                                   f_100) 1 |};
        donut := [ {| label := "Miss"; count := total - accurate - close |};
                   {| label := "Close"; count := close |};
                   {| label := "Accurate"; count := accurate |} ];
        heatmap :=
          {| zones_order := ZONES_ORDER;
             labels_grid :=
               map (map (fun z => label_text total z (landings z l))) ZONES_ORDER;
             counts_grid := map (map (fun z => landings z l)) ZONES_ORDER;
             counts_by_zone := map (fun z => (z, landings z l)) ALL_ZONES |};
        log := l |},
   self).
Proof.
  intros l total accurate close.
  assert (Hlabels :
            mapM (mapM (fun z => bind (getitem (tally l) z)
                                      (fun v => fmt total z v)))
                 ZONES_ORDER self =
            (Return (map (map (fun z => label_text total z (landings z l)))
                         ZONES_ORDER), self)).
  { apply mapM_pure. intros row Hrow. apply mapM_pure. intros z Hz.
    assert (Hzone : In z ALL_ZONES) by (eapply row_in_ALL_ZONES; eassumption).
    unfold bind. rewrite getitem_tally by exact Hzone.
    rewrite tally_get_default by exact Hzone.
    apply fmt_run; [apply landings_nonneg | apply Nat2Z.is_nonneg]. }
  assert (Hcounts :
            mapM (mapM (getitem (tally l))) ZONES_ORDER self =
            (Return (map (map (fun z => landings z l)) ZONES_ORDER), self)).
  { apply mapM_pure. intros row Hrow. apply mapM_pure. intros z Hz.
    assert (Hzone : In z ALL_ZONES) by (eapply row_in_ALL_ZONES; eassumption).
    rewrite getitem_tally by exact Hzone.
    now rewrite tally_get_default by exact Hzone. }
  unfold generate_summary.
  rewrite !bind_gets. fold l total accurate close.
  rewrite (bind_run _ _ _ _ _
             (accuracy_pct_run total (accurate + close) self
                (Z.add_nonneg_nonneg _ _ (count_accuracy_nonneg 10 l)
                                         (count_accuracy_nonneg 5 l))
                (Nat2Z.is_nonneg _))).
  rewrite bind_gets. fold l.
  rewrite (bind_run _ _ _ _ _ Hlabels), (bind_run _ _ _ _ _ Hcounts).
  rewrite bind_gets. fold l.
  rewrite entry_records_id, tally_explicit. reflexivity.
Qed.

(** ** Sums and counts *)

Lemma fold_left_add_acc (l : list Z) (a : Z) :
  fold_left Z.add l a = a + fold_left Z.add l 0.
Proof.
  revert a. induction l as [|x l IH]; intros a; simpl; [lia|].
  rewrite (IH (a + x)), (IH x). lia.
Qed.

Lemma py_sum_cons (x : Z) (l : list Z) : py_sum (x :: l) = x + py_sum l.
Proof. unfold py_sum. simpl. apply fold_left_add_acc. Qed.

(** One zone of a list without repetition matches a given string, or
    none. *)
Lemma py_sum_indicator (a : string) (zs : list string) :
  NoDup zs ->
  py_sum (map (fun z => if String.eqb a z then 1 else 0) zs) =
  if list_contains a zs then 1 else 0.
Proof.
  induction zs as [|k ks IH]; intros Hnd; [reflexivity|].
  inversion Hnd as [|? ? Hnotin Hnd']; subst.
  rewrite map_cons, py_sum_cons, IH by exact Hnd'.
  unfold list_contains. simpl existsb.
  destruct (String.eqb_spec a k) as [->|Hne]; simpl orb.
  - apply list_contains_not_In in Hnotin. unfold list_contains in Hnotin.
    now rewrite Hnotin.
  - fold (list_contains a ks). now destruct (list_contains a ks).
Qed.

Lemma landed_in_zone_cons (p : PitchEntry.t) (l : list PitchEntry.t) :
  landed_in_zone (p :: l) =
  if list_contains (PitchEntry.actual p) ALL_ZONES
  then p :: landed_in_zone l else landed_in_zone l.
Proof. reflexivity. Qed.

Lemma sum_landings_cons (p : PitchEntry.t) (l : list PitchEntry.t)
    (zs : list string) :
  py_sum (map (fun z => landings z (p :: l)) zs) =
  py_sum (map (fun z => if String.eqb (PitchEntry.actual p) z then 1 else 0) zs)
  + py_sum (map (fun z => landings z l) zs).
Proof.
  induction zs as [|k ks IH]; [reflexivity|].
  rewrite !map_cons, !py_sum_cons, IH, landings_cons. lia.
Qed.

Lemma sum_landings (l : list PitchEntry.t) :
  py_sum (map (fun z => landings z l) ALL_ZONES) = len (landed_in_zone l).
Proof.
  induction l as [|p l IH].
  - vm_compute. reflexivity.
  - rewrite sum_landings_cons, IH, py_sum_indicator by exact ALL_ZONES_NoDup.
    rewrite landed_in_zone_cons.
    destruct (list_contains (PitchEntry.actual p) ALL_ZONES);
      unfold len; [rewrite length_cons|]; lia.
Qed.

Lemma landed_in_zone_all (l : list PitchEntry.t) :
  Forall (fun p => In (PitchEntry.actual p) ALL_ZONES) l ->
  landed_in_zone l = l.
Proof.
  induction 1 as [|p l Hp _ IH]; [reflexivity|].
  rewrite landed_in_zone_cons.
  apply list_contains_In in Hp. now rewrite Hp, IH.
Qed.

Lemma landed_in_zone_le (l : list PitchEntry.t) :
  len (landed_in_zone l) <= len l.
Proof.
  unfold len, landed_in_zone. apply inj_le, filter_length_le.
Qed.

(** The entries of a log split into those of accuracy 10, those of
    accuracy 5 and the others. *)
Lemma count_accuracy_split (l : list PitchEntry.t) :
  len l =
  count_accuracy 10 l + count_accuracy 5 l
  + len (filter (fun p => negb (PitchEntry.accuracy p =? 10)
                          && negb (PitchEntry.accuracy p =? 5)) l).
Proof.
  rewrite !count_accuracy_count_occ. unfold len.
  induction l as [|p l IH]; [reflexivity|].
  simpl List.length. simpl map. simpl filter.
  destruct (Z.eqb_spec (PitchEntry.accuracy p) 10) as [E10|E10].
  - rewrite (count_occ_cons_eq Z.eq_dec _ E10).
    rewrite (count_occ_cons_neq Z.eq_dec) by lia. simpl andb. lia.
  - rewrite (count_occ_cons_neq Z.eq_dec _ E10).
    destruct (Z.eqb_spec (PitchEntry.accuracy p) 5) as [E5|E5].
    + rewrite (count_occ_cons_eq Z.eq_dec _ E5). simpl andb. lia.
    + rewrite (count_occ_cons_neq Z.eq_dec _ E5). simpl andb.
      simpl List.length. lia.
Qed.

(** ** One over one *)

Lemma div_eucl_shiftl_same (p : positive) :
  Z.div_eucl (Z.shiftl (Zpos p) 53) (Zpos p) = (2 ^ 53, 0).
Proof.
  rewrite Z.shiftl_mul_pow2 by lia.
  destruct (Z.div_eucl (Z.pos p * 2 ^ 53) (Z.pos p)) as [q r] eqn:E.
  assert (Hq : q = Z.pos p * 2 ^ 53 / Z.pos p)
    by (unfold Z.div; now rewrite E).
  assert (Hr : r = (Z.pos p * 2 ^ 53) mod Z.pos p)
    by (unfold Z.modulo; now rewrite E).
  rewrite Z.mul_comm, Z.div_mul in Hq by lia.
  rewrite Z.mul_comm, Z.mod_mul in Hr by lia.
  now subst.
Qed.

(** [n / n] is the double 1.0, [2^52 * 2^-52], whatever the size of [n]. *)
Lemma float_ratio_same (n : Z) :
  0 < n -> float_ratio false n n = S754_finite false 4503599627370496 (-52).
Proof.
  intros Hn. destruct n as [|p|p]; try lia.
  unfold float_ratio, SFdiv, SFdiv_core_binary.
  replace (Zdigits2 (Z.pos p) + 0 - (Zdigits2 (Z.pos p) + 0)) with 0 by lia.
  change (Z.min (fexp prec emax 0) (0 - 0)) with (-53).
  change (0 - 0 - -53) with 53.
  cbv zeta. cbv iota.
  change (IntDef.Z.div_eucl (IntDef.Z.shiftl (Z.pos p) 53) (Z.pos p))
    with (Z.div_eucl (Z.shiftl (Z.pos p) 53) (Z.pos p)).
  rewrite div_eucl_shiftl_same.
  unfold new_location, new_location_even, new_location_odd.
  destruct (Z.even (Z.pos p)); vm_compute; reflexivity.
Qed.

(* ================================================================== *)
(** ** The heatmap *)

(** X8. In the snapshot, [counts_by_zone] holds the 25 zones in the order of
    [ALL_ZONES], each with the number of log entries whose [actual] is that
    zone; a string that is not a zone has no key, and an entry whose
    [actual] is not a zone is counted nowhere. *)
Theorem counts_by_zone_counts_landings (self : PitchTracker) :
  exists s,
    generate_summary self = (Return s, self) /\
    counts_by_zone (heatmap s) =
      map (fun z => (z, landings z (pitch_log self))) ALL_ZONES /\
    forall z,
      dict_get z (counts_by_zone (heatmap s)) =
      if list_contains z ALL_ZONES then Some (landings z (pitch_log self))
      else None.
Proof.
  eexists. split; [apply generate_summary_explicit|].
  cbn [heatmap counts_by_zone]. split; [reflexivity|].
  intros z. rewrite <- tally_explicit. apply tally_get.
Qed.

(** X9. The two grids of the heatmap follow the layout: cell (r, c) of
    [counts_grid] is the number of entries that landed in the zone at
    (r, c) of [ZONES_ORDER], and cell (r, c) of [labels_grid] is the text
    for that zone and that count: the zone followed by [(0,0%)] on an empty
    log, and by the count and its share of the log to one decimal
    otherwise. *)
Theorem heatmap_grids_follow_layout (self : PitchTracker) :
  let l := pitch_log self in
  exists s,
    generate_summary self = (Return s, self) /\
    zones_order (heatmap s) = ZONES_ORDER /\
    counts_grid (heatmap s) = map (map (fun z => landings z l)) ZONES_ORDER /\
    labels_grid (heatmap s) =
      map (map (fun z =>
                  if len l =? 0 then (z ++ " (0,0%)")%string
                  else (z ++ " (" ++ str_int (landings z l) ++ ", "
                          ++ format_1f
                               (fmul (float_ratio false (landings z l) (len l))
                                     f_100)
                          ++ "%)")%string))
          ZONES_ORDER /\
    (forall r c z,
        nth_error ZONES_ORDER r = Some c ->
        forall i, nth_error c i = Some z ->
        exists row, nth_error (counts_grid (heatmap s)) r = Some row /\
                    nth_error row i = Some (landings z l)).
Proof.
  intros l. eexists. split; [apply generate_summary_explicit|].
  cbn [heatmap zones_order counts_grid labels_grid]. fold l.
  split; [reflexivity | split; [reflexivity | split; [reflexivity|]]].
  intros r c z Hr i Hi.
  exists (map (fun z => landings z l) c). split.
  - now rewrite nth_error_map, Hr.
  - now rewrite nth_error_map, Hi.
Qed.

Lemma heatmap_grids_follow_layout_witness :
  nth_error ZONES_ORDER 1 = Some ["L1"; "Q1"; "Q2"; "Q3"; "R1"] /\
  nth_error ["L1"; "Q1"; "Q2"; "Q3"; "R1"] 2 = Some "Q2" /\
  exists s,
    generate_summary three_pitches = (Return s, three_pitches) /\
    exists row, nth_error (counts_grid (heatmap s)) 1 = Some row /\
                nth_error row 2 = Some 1.
Proof.
  split; [reflexivity | split; [reflexivity |]].
  destruct (heatmap_grids_follow_layout three_pitches)
    as [s [Hrun [_ [_ [_ H]]]]].
  exists s. split; [exact Hrun|].
  exact (H 1%nat ["L1"; "Q1"; "Q2"; "Q3"; "R1"] "Q2" eq_refl 2%nat eq_refl).
Defined.

(** X10. The counts of the heatmap add up to the number of entries that
    landed in a zone, which is at most [total_pitches]; they add up to
    [total_pitches] when every entry of the log landed in a zone. *)
Theorem heatmap_counts_sum (self : PitchTracker) :
  exists s,
    generate_summary self = (Return s, self) /\
    py_sum (map snd (counts_by_zone (heatmap s))) =
      len (landed_in_zone (pitch_log self)) /\
    py_sum (map snd (counts_by_zone (heatmap s))) <= total_pitches (summary s) /\
    (Forall (fun p => In (PitchEntry.actual p) ALL_ZONES) (pitch_log self) ->
     py_sum (map snd (counts_by_zone (heatmap s))) = total_pitches (summary s)).
Proof.
  eexists. split; [apply generate_summary_explicit|].
  cbn [heatmap counts_by_zone summary total_pitches].
  rewrite map_map. cbn [snd]. rewrite sum_landings.
  split; [reflexivity | split; [apply landed_in_zone_le|]].
  intros H. now rewrite landed_in_zone_all.
Qed.

Lemma heatmap_counts_sum_witness :
  Forall (fun p => In (PitchEntry.actual p) ALL_ZONES) (pitch_log three_pitches) /\
  exists s,
    generate_summary three_pitches = (Return s, three_pitches) /\
    py_sum (map snd (counts_by_zone (heatmap s))) = total_pitches (summary s).
Proof.
  assert (H : Forall (fun p => In (PitchEntry.actual p) ALL_ZONES)
                     (pitch_log three_pitches))
    by (repeat constructor; apply list_contains_In; reflexivity).
  split; [exact H|].
  destruct (heatmap_counts_sum three_pitches) as [s [Hrun [_ [_ Hsum]]]].
  exists s. split; [exact Hrun | exact (Hsum H)].
Defined.

(* ================================================================== *)
(** ** The totals *)

(** X11. In the snapshot the three counts are never negative and add up to
    [total_pitches]; [miss_0] is the number of entries whose accuracy is
    neither 10 nor 5; and the donut lists Miss, Close and Accurate, in that
    order, with these counts. *)
Theorem summary_breakdown (self : PitchTracker) :
  exists s,
    generate_summary self = (Return s, self) /\
    0 <= accurate_10 (summary s) /\
    0 <= close_5 (summary s) /\
    0 <= miss_0 (summary s) /\
    accurate_10 (summary s) + close_5 (summary s) + miss_0 (summary s) =
      total_pitches (summary s) /\
    miss_0 (summary s) =
      len (filter (fun p => negb (PitchEntry.accuracy p =? 10)
                            && negb (PitchEntry.accuracy p =? 5))
                  (pitch_log self)) /\
    donut s = [ {| label := "Miss"; count := miss_0 (summary s) |};
                {| label := "Close"; count := close_5 (summary s) |};
                {| label := "Accurate"; count := accurate_10 (summary s) |} ].
Proof.
  eexists. split; [apply generate_summary_explicit|].
  cbn [summary donut accurate_10 close_5 miss_0 total_pitches].
  pose proof (count_accuracy_split (pitch_log self)) as Hsplit.
  pose proof (count_accuracy_nonneg 10 (pitch_log self)).
  pose proof (count_accuracy_nonneg 5 (pitch_log self)).
  remember (filter _ (pitch_log self)) as others.
  assert (0 <= len others) by apply Nat2Z.is_nonneg.
  repeat split; lia.
Qed.

(** X12. The snapshot depends on the log alone: two trackers with the same
    log, whatever their target and counter, give the same snapshot. *)
Theorem summary_depends_on_log_only (self other : PitchTracker)
    (Hlog : pitch_log self = pitch_log other) :
  fst (generate_summary self) = fst (generate_summary other).
Proof.
  rewrite (generate_summary_explicit self), (generate_summary_explicit other).
  cbn [fst]. now rewrite Hlog.
Qed.

Lemma summary_depends_on_log_only_witness :
  pitch_log three_pitches =
    pitch_log (mkPitchTracker (Some "B2") 7 (pitch_log three_pitches)) /\
  fst (generate_summary three_pitches) =
    fst (generate_summary
           (mkPitchTracker (Some "B2") 7 (pitch_log three_pitches))).
Proof.
  split; [reflexivity|].
  exact (summary_depends_on_log_only
           three_pitches
           (mkPitchTracker (Some "B2") 7 (pitch_log three_pitches)) eq_refl).
Defined.

(** X13. When no entry of a non-empty log is a miss ([miss_0] is 0),
    [accuracy_pct] is the double 100.0, whatever the length of the log; when
    no entry is accurate or close, it is 0.0. *)
Theorem accuracy_pct_extremes (self : PitchTracker) :
  exists s,
    generate_summary self = (Return s, self) /\
    (0 < total_pitches (summary s) -> miss_0 (summary s) = 0 ->
     accuracy_pct (summary s) = f_100) /\
    (accurate_10 (summary s) + close_5 (summary s) = 0 ->
     accuracy_pct (summary s) = f_zero).
Proof.
  eexists. split; [apply generate_summary_explicit|].
  cbn [summary accurate_10 close_5 miss_0 total_pitches accuracy_pct].
  split.
  - intros Hpos Hmiss.
    replace (count_accuracy 10 (pitch_log self)
             + count_accuracy 5 (pitch_log self))
      with (len (pitch_log self)) by lia.
    destruct (Z.eqb_spec (len (pitch_log self)) 0) as [E|_]; [lia|].
    rewrite float_ratio_same by exact Hpos. vm_compute. reflexivity.
  - intros ->.
    destruct (Z.eqb_spec (len (pitch_log self)) 0) as [E|E]; [reflexivity|].
    assert (Hpos : 0 < len (pitch_log self))
      by (pose proof (Nat2Z.is_nonneg (List.length (pitch_log self)));
          unfold len in *; lia).
    destruct (len (pitch_log self)) as [|p|p]; try lia. reflexivity.
Qed.

Lemma accuracy_pct_extremes_witness :
  exists s,
    generate_summary two_hits = (Return s, two_hits) /\
    0 < total_pitches (summary s) /\
    miss_0 (summary s) = 0 /\
    accuracy_pct (summary s) = f_100.
Proof.
  destruct (accuracy_pct_extremes two_hits) as [s [Hrun [H _]]].
  exists s. split; [exact Hrun|].
  pose proof (generate_summary_explicit two_hits) as He.
  rewrite Hrun in He. injection He as He.
  assert (Ht : 0 < total_pitches (summary s)) by (rewrite He; reflexivity).
  assert (Hm : miss_0 (summary s) = 0) by (rewrite He; reflexivity).
  split; [exact Ht | split; [exact Hm | exact (H Ht Hm)]].
Defined.

(** X14. A [log_pitch] that returns adds its entry at the end of the
    snapshot's log, raises [total_pitches] by one, raises the heatmap count
    of the zone the pitch landed in by one and leaves the count of every
    other zone as it was. *)
Theorem log_pitch_adds_one_landing (self self' : PitchTracker)
    (actual : string) (e : PitchEntry.t)
    (Hrun : log_pitch actual self = (Return e, self')) :
  exists s s',
    generate_summary self = (Return s, self) /\
    generate_summary self' = (Return s', self') /\
    log s' = log s ++ [e] /\
    total_pitches (summary s') = total_pitches (summary s) + 1 /\
    forall z,
      dict_get_default z 0 (counts_by_zone (heatmap s')) =
      dict_get_default z 0 (counts_by_zone (heatmap s))
      + (if String.eqb z actual then 1 else 0).
Proof.
  rewrite log_pitch_run in Hrun.
  destruct (list_contains actual ALL_ZONES) eqn:Hzone; [|discriminate Hrun].
  destruct (target self) as [t|]; [|discriminate Hrun].
  destruct (String.eqb t EmptyString); [discriminate Hrun|].
  cbv zeta in Hrun. injection Hrun as He Hself'.
  do 2 eexists.
  split; [apply generate_summary_explicit|].
  split; [apply generate_summary_explicit|].
  cbn [log summary total_pitches heatmap counts_by_zone].
  rewrite <- Hself'. cbn [pitch_log]. rewrite He.
  split; [reflexivity | split].
  - unfold len. rewrite length_app. simpl List.length. lia.
  - intros z. rewrite <- !tally_explicit. unfold dict_get_default.
    rewrite !tally_get.
    destruct (list_contains z ALL_ZONES) eqn:Hz.
    + rewrite landings_app. f_equal.
      rewrite landings_cons, <- He. cbn [PitchEntry.actual].
      rewrite (String.eqb_sym actual z).
      unfold landings. simpl. lia.
    + destruct (String.eqb_spec z actual) as [->|_]; [congruence | reflexivity].
Qed.

Lemma log_pitch_adds_one_landing_witness :
  log_pitch "Q2" (mkPitchTracker (Some "Q1") 0 []) =
    (Return (PitchEntry.mk 1 "Q1" "Q2" 5),
     mkPitchTracker None 1 [PitchEntry.mk 1 "Q1" "Q2" 5]) /\
  exists s s',
    generate_summary (mkPitchTracker (Some "Q1") 0 []) =
      (Return s, mkPitchTracker (Some "Q1") 0 []) /\
    generate_summary (mkPitchTracker None 1 [PitchEntry.mk 1 "Q1" "Q2" 5]) =
      (Return s', mkPitchTracker None 1 [PitchEntry.mk 1 "Q1" "Q2" 5]) /\
    total_pitches (summary s') = total_pitches (summary s) + 1.
Proof.
  split; [reflexivity|].
  destruct (log_pitch_adds_one_landing
              (mkPitchTracker (Some "Q1") 0 [])
              (mkPitchTracker None 1 [PitchEntry.mk 1 "Q1" "Q2" 5])
              "Q2" (PitchEntry.mk 1 "Q1" "Q2" 5) eq_refl)
    as [s [s' [H1 [H2 [_ [H3 _]]]]]].
  exists s, s'. auto.
Defined.

(* ================================================================== *)
(** ** The zone graph and the scores *)

Lemma is_neighbor_irrefl (z : string) : is_neighbor z z = false.
Proof.
  destruct (is_neighbor z z) eqn:E; [|reflexivity].
  destruct (NEIGHBORS_values_are_zones z z E) as [H _].
  simpl in H.
  repeat (destruct H as [<-|H]; [discriminate E|]). destruct H.
Qed.

Lemma is_neighbor_from_corner (c z : string) :
  In c CORNERS -> is_neighbor c z = false.
Proof.
  intros H. simpl in H.
  repeat (destruct H as [<-|H]; [reflexivity|]). destruct H.
Qed.

Lemma is_neighbor_to_corner (z c : string) :
  In c CORNERS -> is_neighbor z c = false.
Proof.
  intros Hc. destruct (is_neighbor z c) eqn:E; [|reflexivity].
  destruct (NEIGHBORS_values_are_zones z c E) as [H _].
  simpl in Hc.
  repeat (destruct Hc as [<-|Hc];
          [simpl in H;
           repeat (destruct H as [<-|H]; [discriminate E|]); destruct H|]).
  destruct Hc.
Qed.

(** X6. [is_neighbor z1 z2] holds only between two different zones, neither
    of them a corner: it is false as soon as one argument is not a zone, is
    a corner, or equals the other. *)
Theorem is_neighbor_only_between_listed_zones (z1 z2 : string)
    (H : is_neighbor z1 z2 = true) :
  In z1 ALL_ZONES /\ In z2 ALL_ZONES /\
  ~ In z1 CORNERS /\ ~ In z2 CORNERS /\
  z1 <> z2.
Proof.
  destruct (NEIGHBORS_values_are_zones z1 z2 H) as [H1 H2].
  split; [exact H1 | split; [exact H2 | split; [|split]]].
  - intros Hc. rewrite (is_neighbor_from_corner z1 z2 Hc) in H. discriminate H.
  - intros Hc. rewrite (is_neighbor_to_corner z1 z2 Hc) in H. discriminate H.
  - intros ->. rewrite is_neighbor_irrefl in H. discriminate H.
Qed.

Lemma is_neighbor_only_between_listed_zones_witness :
  is_neighbor "B2" "Q8" = true /\
  (In "B2" ALL_ZONES /\ In "Q8" ALL_ZONES /\
   ~ In "B2" CORNERS /\ ~ In "Q8" CORNERS /\
   "B2" <> "Q8").
Proof.
  split; [reflexivity|].
  exact (is_neighbor_only_between_listed_zones "B2" "Q8" eq_refl).
Defined.

(** X5. The entry a returning [log_pitch] creates records the pending target
    and the zone given; its accuracy is 10 exactly when the two are equal, 5
    exactly when the zone is a listed neighbor of the target, and 0 exactly
    when it is neither. *)
Theorem log_pitch_accuracy_cases (self self' : PitchTracker)
    (actual : string) (e : PitchEntry.t)
    (Hrun : log_pitch actual self = (Return e, self')) :
  target self = Some (PitchEntry.target e) /\
  PitchEntry.actual e = actual /\
  (PitchEntry.accuracy e = 10 <-> PitchEntry.target e = actual) /\
  (PitchEntry.accuracy e = 5 <->
   is_neighbor (PitchEntry.target e) actual = true) /\
  (PitchEntry.accuracy e = 0 <->
   PitchEntry.target e <> actual /\
   is_neighbor (PitchEntry.target e) actual = false).
Proof.
  rewrite log_pitch_run in Hrun.
  destruct (list_contains actual ALL_ZONES); [|discriminate Hrun].
  destruct (target self) as [t|]; [|discriminate Hrun].
  destruct (String.eqb t EmptyString); [discriminate Hrun|].
  cbv zeta in Hrun. injection Hrun as <- _.
  cbn [PitchEntry.target PitchEntry.actual PitchEntry.accuracy].
  split; [reflexivity | split; [reflexivity|]].
  unfold score.
  destruct (String.eqb_spec t actual) as [->|Hne].
  - rewrite is_neighbor_irrefl.
    repeat split; try discriminate; try tauto; intros [? ?]; contradiction.
  - destruct (is_neighbor t actual);
      repeat split; try discriminate; try tauto; try (intros [_ ?]; discriminate).
Qed.

Lemma log_pitch_accuracy_cases_witness :
  log_pitch "Q2" (mkPitchTracker (Some "Q1") 0 []) =
    (Return (PitchEntry.mk 1 "Q1" "Q2" 5),
     mkPitchTracker None 1 [PitchEntry.mk 1 "Q1" "Q2" 5]) /\
  (5 = 5 <-> is_neighbor "Q1" "Q2" = true).
Proof.
  split; [reflexivity|].
  exact (proj1 (proj2 (proj2 (proj2
           (log_pitch_accuracy_cases
              (mkPitchTracker (Some "Q1") 0 [])
              (mkPitchTracker None 1 [PitchEntry.mk 1 "Q1" "Q2" 5])
              "Q2" (PitchEntry.mk 1 "Q1" "Q2" 5) eq_refl))))).
Defined.

(** X7. Over all integers, [get_heat_color] gives white for 0 only, light
    blue for 1, 2 and every negative number, medium blue for 3 to 5 only
    and dark blue from 6 on only. *)
Theorem get_heat_color_bands (v : Z) :
  (get_heat_color v = "#ffffff" <-> v = 0) /\
  (get_heat_color v = "#a3d5ff" <-> v < 0 \/ 1 <= v <= 2) /\
  (get_heat_color v = "#3399ff" <-> 3 <= v <= 5) /\
  (get_heat_color v = "#004c99" <-> 6 <= v).
Proof.
  unfold get_heat_color.
  destruct (Z.eqb_spec v 0) as [E0|E0];
    destruct (Z.ltb_spec v 3) as [E3|E3];
    destruct (Z.ltb_spec v 6) as [E6|E6];
    repeat split; intros; try lia; try reflexivity; try discriminate.
Qed.

(* ================================================================== *)
(** ** Calls in sequence *)

Lemma run_calls_app (cs cs' : list call) (self : PitchTracker) :
  run_calls (cs ++ cs') self = run_calls cs' (run_calls cs self).
Proof. unfold run_calls. apply fold_left_app. Qed.

Lemma session_run_calls (cs : list call) : session cs = run_calls cs new_tracker.
Proof. reflexivity. Qed.

(** X1. On a zone, [set_target] returns, makes the zone the target and leaves
    the counter and the log as they were; a target set earlier and not yet
    used is replaced, so of two [set_target] calls in a row the second
    decides, whatever the first was given. *)
Theorem set_target_last_wins (self : PitchTracker) (z0 z : string)
    (Hz : In z ALL_ZONES) :
  set_target z self =
    (Return tt, {| target := Some z;
                   pitch_counter := pitch_counter self;
                   pitch_log := pitch_log self |}) /\
  run_calls [SetTarget z0; SetTarget z] self = run_calls [SetTarget z] self.
Proof.
  apply list_contains_In in Hz.
  assert (Hset : forall s, set_target z s =
                   (Return tt, {| target := Some z;
                                  pitch_counter := pitch_counter s;
                                  pitch_log := pitch_log s |}))
    by (intros s; now rewrite set_target_run, Hz).
  split; [apply Hset|].
  unfold run_calls. cbn [fold_left after]. rewrite !Hset. cbn [snd].
  rewrite set_target_run. now destruct (list_contains z0 ALL_ZONES).
Qed.

Lemma set_target_last_wins_witness :
  In "B3" ALL_ZONES /\
  set_target "B3" three_pitches =
    (Return tt, {| target := Some "B3";
                   pitch_counter := pitch_counter three_pitches;
                   pitch_log := pitch_log three_pitches |}) /\
  run_calls [SetTarget "Q4"; SetTarget "B3"] three_pitches =
    run_calls [SetTarget "B3"] three_pitches.
Proof.
  assert (Hz : In "B3" ALL_ZONES) by (apply list_contains_In; reflexivity).
  split; [exact Hz|].
  exact (set_target_last_wins three_pitches "Q4" "B3" Hz).
Defined.

(** X2. [clear_pitch_log] forgets all that came before: whatever the tracker
    and the calls made on it, once cleared it goes on as a new tracker
    does. *)
Theorem clear_forgets_history (self : PitchTracker) (cs cs' : list call) :
  run_calls (cs ++ ClearPitchLog :: cs') self = session cs'.
Proof.
  rewrite run_calls_app. unfold run_calls at 1. cbn [fold_left after].
  now rewrite clear_pitch_log_run.
Qed.

Lemma after_log_grows (c : call) (self : PitchTracker) :
  c <> ClearPitchLog ->
  exists suffix,
    pitch_log (after c self) = pitch_log self ++ suffix /\
    (List.length suffix <= 1)%nat.
Proof.
  intros Hc. destruct c as [zone|actual| |].
  - exists []. simpl. rewrite set_target_run, app_nil_r.
    destruct (list_contains zone ALL_ZONES); auto.
  - simpl. rewrite log_pitch_run.
    destruct (list_contains actual ALL_ZONES);
      [|exists []; rewrite app_nil_r; auto].
    destruct (target self) as [t|]; [|exists []; rewrite app_nil_r; auto].
    destruct (String.eqb t EmptyString); [exists []; rewrite app_nil_r; auto|].
    eexists. cbn [snd pitch_log]. split; [reflexivity | simpl; lia].
  - contradiction.
  - exists []. rewrite after_GenerateSummary, app_nil_r. auto.
Qed.

(** X3. Only [clear_pitch_log] removes or changes entries: over calls with
    no [clear_pitch_log] among them, the log the tracker had stays as the
    beginning of its log, and at most one entry is added per call. *)
Theorem log_only_grows (self : PitchTracker) (cs : list call)
    (Hcs : ~ In ClearPitchLog cs) :
  exists suffix,
    pitch_log (run_calls cs self) = pitch_log self ++ suffix /\
    (List.length suffix <= List.length cs)%nat.
Proof.
  revert self. induction cs as [|c cs IH]; intros self.
  - exists []. now rewrite app_nil_r.
  - assert (Hc : c <> ClearPitchLog)
      by (intros ->; apply Hcs; now left).
    destruct (after_log_grows c self Hc) as [s1 [H1 L1]].
    destruct (IH (fun H => Hcs (or_intror H)) (after c self)) as [s2 [H2 L2]].
    exists (s1 ++ s2). change (run_calls (c :: cs) self)
                         with (run_calls cs (after c self)).
    rewrite H2, H1, app_assoc, length_app. split; [reflexivity|].
    simpl List.length. lia.
Qed.

Lemma log_only_grows_witness :
  ~ In ClearPitchLog [SetTarget "Q1"; LogPitch "Q3"; LogPitch "Q3"] /\
  exists suffix,
    pitch_log (run_calls [SetTarget "Q1"; LogPitch "Q3"; LogPitch "Q3"]
                         three_pitches) =
      pitch_log three_pitches ++ suffix /\
    (List.length suffix <= 3)%nat.
Proof.
  assert (H : ~ In ClearPitchLog [SetTarget "Q1"; LogPitch "Q3"; LogPitch "Q3"])
    by (simpl; intuition discriminate).
  split; [exact H|].
  exact (log_only_grows three_pitches
                        [SetTarget "Q1"; LogPitch "Q3"; LogPitch "Q3"] H).
Defined.

(** Every call keeps the entries of the log made of a target zone, a landing
    zone and the score of the two. *)
Lemma after_entries_scored (c : call) (self : PitchTracker) :
  target_is_zone self ->
  Forall (fun e => In (PitchEntry.target e) ALL_ZONES /\
                   In (PitchEntry.actual e) ALL_ZONES /\
                   PitchEntry.accuracy e =
                     score (PitchEntry.target e) (PitchEntry.actual e))
         (pitch_log self) ->
  Forall (fun e => In (PitchEntry.target e) ALL_ZONES /\
                   In (PitchEntry.actual e) ALL_ZONES /\
                   PitchEntry.accuracy e =
                     score (PitchEntry.target e) (PitchEntry.actual e))
         (pitch_log (after c self)).
Proof.
  intros Ht Hl. destruct c as [zone|actual| |].
  - simpl. rewrite set_target_run.
    now destruct (list_contains zone ALL_ZONES).
  - simpl. rewrite log_pitch_run.
    destruct (list_contains actual ALL_ZONES) eqn:Ha; [|exact Hl].
    unfold target_is_zone in Ht.
    destruct (target self) as [t|]; [|exact Hl].
    destruct (String.eqb t EmptyString); [exact Hl|].
    cbn [snd pitch_log]. apply Forall_app. split; [exact Hl|].
    constructor; [|constructor].
    cbn [PitchEntry.target PitchEntry.actual PitchEntry.accuracy].
    apply list_contains_In in Ha. auto.
  - constructor.
  - now rewrite after_GenerateSummary.
Qed.

Lemma session_entries_scored (cs : list call) :
  Forall (fun e => In (PitchEntry.target e) ALL_ZONES /\
                   In (PitchEntry.actual e) ALL_ZONES /\
                   PitchEntry.accuracy e =
                     score (PitchEntry.target e) (PitchEntry.actual e))
         (pitch_log (session cs)).
Proof.
  induction cs as [|c cs IH] using rev_ind; [constructor|].
  rewrite session_snoc.
  apply after_entries_scored; [apply session_target_is_zone | exact IH].
Qed.

Lemma session_numbering (cs : list call) :
  pitch_counter (session cs) = len (pitch_log (session cs)) /\
  map PitchEntry.pitch_num (pitch_log (session cs)) =
    map Z.of_nat (seq 1 (List.length (pitch_log (session cs)))).
Proof.
  induction cs as [|c cs [IHc IHn]] using rev_ind.
  - split; reflexivity.
  - rewrite session_snoc. now apply after_counter.
Qed.

(** X4. After any sequence of calls on a new tracker, every entry of the log
    has a zone as target and a zone as landing place, and an accuracy that
    is the score of the two: 10 when they are equal, else 5 when the second
    is a listed neighbor of the first, else 0. *)
Theorem session_entries_well_formed (cs : list call) :
  Forall (fun e =>
            In (PitchEntry.target e) ALL_ZONES /\
            In (PitchEntry.actual e) ALL_ZONES /\
            PitchEntry.accuracy e =
              (if String.eqb (PitchEntry.target e) (PitchEntry.actual e) then 10
               else if is_neighbor (PitchEntry.target e) (PitchEntry.actual e)
                    then 5 else 0) /\
            In (PitchEntry.accuracy e) [0; 5; 10])
         (pitch_log (session cs)).
Proof.
  eapply Forall_impl; [|apply session_entries_scored].
  intros e [Ht [Ha Hs]]. unfold score in Hs.
  split; [exact Ht | split; [exact Ha | split; [exact Hs|]]].
  rewrite Hs.
  destruct (String.eqb (PitchEntry.target e) (PitchEntry.actual e));
    [|destruct (is_neighbor (PitchEntry.target e) (PitchEntry.actual e))];
    simpl; auto.
Qed.

(** X15. After any sequence of calls on a new tracker, the snapshot agrees
    with the tracker: [total_pitches] is the counter, the pitch numbers of
    its log are 1, 2, ... in order, the heatmap counts add up to
    [total_pitches], and [miss_0] is the number of entries of accuracy 0. *)
Theorem session_summary_matches_counter (cs : list call) :
  exists s,
    generate_summary (session cs) = (Return s, session cs) /\
    total_pitches (summary s) = pitch_counter (session cs) /\
    map PitchEntry.pitch_num (log s) =
      map Z.of_nat (seq 1 (Z.to_nat (total_pitches (summary s)))) /\
    py_sum (map snd (counts_by_zone (heatmap s))) = total_pitches (summary s) /\
    miss_0 (summary s) =
      Z.of_nat (count_occ Z.eq_dec
                          (map PitchEntry.accuracy (pitch_log (session cs))) 0).
Proof.
  destruct (session_numbering cs) as [Hc Hn].
  pose proof (session_entries_scored cs) as Hs.
  eexists. split; [apply generate_summary_explicit|].
  cbn [summary heatmap log total_pitches counts_by_zone miss_0].
  split; [now rewrite Hc | split; [|split]].
  - unfold len. now rewrite Nat2Z.id.
  - rewrite map_map. cbn [snd]. rewrite sum_landings, landed_in_zone_all.
    + reflexivity.
    + eapply Forall_impl; [|exact Hs]. intros e [_ [H _]]. exact H.
  - rewrite (count_accuracy_split (pitch_log (session cs))).
    rewrite <- (count_accuracy_count_occ 0).
    unfold count_accuracy. rewrite !py_sum_ones.
    match goal with
    | |- ?a + ?b + ?x - ?a - ?b = ?y => enough (x = y) by lia
    end.
    f_equal. clear Hc Hn.
    induction Hs as [|e l [_ [_ He]] _ IH]; [reflexivity|].
    simpl filter. rewrite IH. rewrite He. unfold score.
    destruct (String.eqb (PitchEntry.target e) (PitchEntry.actual e));
      [|destruct (is_neighbor (PitchEntry.target e) (PitchEntry.actual e))];
      reflexivity.
Qed.

(** X16. Aiming at a zone and then logging a zone always works, whatever the
    tracker held before (a pending target, any counter, any log): the pair
    of calls returns an entry with that target and that landing zone,
    appends it, and leaves the tracker without a target. *)
Theorem set_target_then_log_pitch (self : PitchTracker) (t a : string)
    (Ht : In t ALL_ZONES) (Ha : In a ALL_ZONES) :
  exists e,
    (set_target t ;; log_pitch a) self =
      (Return e, {| target := None;
                    pitch_counter := PitchEntry.pitch_num e;
                    pitch_log := pitch_log self ++ [e] |}) /\
    PitchEntry.target e = t /\
    PitchEntry.actual e = a /\
    PitchEntry.pitch_num e =
      (if pitch_counter self <? 1 then 1 else pitch_counter self + 1).
Proof.
  pose proof (zone_not_empty t Ht) as Hne. apply String.eqb_neq in Hne.
  apply list_contains_In in Ht. apply list_contains_In in Ha.
  exists (PitchEntry.mk (next_pitch_counter (pitch_counter self)) t a
                        (score t a)).
  unfold bind. rewrite set_target_run, Ht, log_pitch_run, Ha.
  cbn [target pitch_counter pitch_log]. rewrite Hne.
  split; [reflexivity | split; [reflexivity | split; reflexivity]].
Qed.

Lemma set_target_then_log_pitch_witness :
  In "L2" ALL_ZONES /\ In "Q4" ALL_ZONES /\
  exists e,
    (set_target "L2" ;; log_pitch "Q4") three_pitches =
      (Return e, {| target := None;
                    pitch_counter := PitchEntry.pitch_num e;
                    pitch_log := pitch_log three_pitches ++ [e] |}) /\
    PitchEntry.target e = "L2" /\
    PitchEntry.actual e = "Q4" /\
    PitchEntry.pitch_num e =
      (if pitch_counter three_pitches <? 1 then 1
       else pitch_counter three_pitches + 1).
Proof.
  assert (Ht : In "L2" ALL_ZONES) by (apply list_contains_In; reflexivity).
  assert (Ha : In "Q4" ALL_ZONES) by (apply list_contains_In; reflexivity).
  split; [exact Ht | split; [exact Ha|]].
  exact (set_target_then_log_pitch three_pitches "L2" "Q4" Ht Ha).
Defined.
